(** * Study-assistant front end: quiz, question paper, upload intake, resources

    A shallow embedding of the state logic of the React components
    [Quiz.jsx], [QuestionPaper.jsx], [PdfUploader.jsx] and [Resources.jsx]
    and of the shell [App.jsx] that connects them, followed by the
    properties established about them.

    Conventions of the embedding.
    - A JavaScript string is a [string]; the helpers of module [Js] act on
      the ASCII range the way the JavaScript methods do (case mapping of
      A-Z / a-z, white space TAB, LF, VT, FF, CR and SPACE) and leave every
      other character alone.
    - A JavaScript number that holds an integer is a [nat] or a [Z]; this is
      exact inside the safe-integer range, which is where the components
      work.  [NaN] and [Infinity] are written out where a division can
      produce them.
    - A React state cell is a record field, an event handler is a function
      from state to state, a callback prop is an entry appended to a log,
      and a [setTimeout] is an entry in a list of pending timers.
    - [undefined] is [None]; a [TypeError] thrown by a handler is an
      explicit outcome. *)

From Stdlib Require Import List String Ascii Bool Arith ZArith QArith Lia.
From Stdlib Require Import DecimalString DecimalNat.
Import ListNotations.

Local Open Scope string_scope.
Local Open Scope list_scope.
Local Open Scope nat_scope.

(** String concatenation, the [+] of JavaScript on strings and the
    juxtaposition inside a template literal. *)
Infix "+++" := String.append (at level 60, right associativity).

(* ===================================================================== *)
(** ** JavaScript string and array helpers                                *)
(* ===================================================================== *)

Module Js.

(** Code of a character, as [charCodeAt] gives it. *)
Definition code (c : ascii) : nat := nat_of_ascii c.

Definition isUpper (c : ascii) : bool := (65 <=? code c) && (code c <=? 90).
Definition isLower (c : ascii) : bool := (97 <=? code c) && (code c <=? 122).

Definition lowerChar (c : ascii) : ascii :=
  if isUpper c then ascii_of_nat (code c + 32) else c.
Definition upperChar (c : ascii) : ascii :=
  if isLower c then ascii_of_nat (code c - 32) else c.

(** [s.toLowerCase()] and [s.toUpperCase()] on the letters of ASCII.  A
    character outside ASCII is left as it is, where the language applies
    the case mappings of Unicode; statements that depend on the mapping
    are made for ASCII strings. *)
Fixpoint toLowerCase (s : string) : string :=
  match s with
  | EmptyString => EmptyString
  | String c r => String (lowerChar c) (toLowerCase r)
  end.

Fixpoint toUpperCase (s : string) : string :=
  match s with
  | EmptyString => EmptyString
  | String c r => String (upperChar c) (toUpperCase r)
  end.

(** [s.charAt(0)]: the first character as a string, or the empty string. *)
Definition charAt0 (s : string) : string :=
  match s with
  | EmptyString => EmptyString
  | String c _ => String c EmptyString
  end.

(** [s.slice(1)]. *)
Definition slice1 (s : string) : string :=
  match s with
  | EmptyString => EmptyString
  | String _ r => r
  end.

(** White space of [trim] and of the regular-expression class [\s],
    among the characters of ASCII. *)
Definition isSpace (c : ascii) : bool :=
  let n := code c in ((9 <=? n) && (n <=? 13)) || (n =? 32).

Fixpoint trimStart (s : string) : string :=
  match s with
  | EmptyString => EmptyString
  | String c r => if isSpace c then trimStart r else s
  end.

Fixpoint trimEnd (s : string) : string :=
  match s with
  | EmptyString => EmptyString
  | String c r =>
      match trimEnd r with
      | EmptyString => if isSpace c then EmptyString else String c EmptyString
      | t => String c t
      end
  end.

(** [s.trim()]. *)
Definition trim (s : string) : string := trimEnd (trimStart s).

(** Truthiness of a string: every string but the empty one. *)
Definition truthy (s : string) : bool :=
  match s with EmptyString => false | _ => true end.

(** [s.includes(sub)]. *)
Fixpoint includes (s sub : string) : bool :=
  if prefix sub s then true
  else match s with
       | EmptyString => false
       | String _ r => includes r sub
       end.

(** [s.split(sep)] for a one-character separator: never an empty array. *)
Fixpoint split (sep : ascii) (s : string) : list string :=
  match s with
  | EmptyString => [EmptyString]
  | String c r =>
      if Ascii.eqb c sep then EmptyString :: split sep r
      else match split sep r with
           | [] => [String c EmptyString]
           | h :: t => String c h :: t
           end
  end.

(** [s.replace(/\s+/g, '-')]: every maximal run of white space becomes
    one dash. *)
Fixpoint dropSpaces (s : string) : string :=
  match s with
  | EmptyString => EmptyString
  | String c r => if isSpace c then dropSpaces r else s
  end.

Fixpoint replaceSpaceRuns (fuel : nat) (s : string) : string :=
  match fuel with
  | O => s
  | S k =>
      match s with
      | EmptyString => EmptyString
      | String c r =>
          if isSpace c then String "-" (replaceSpaceRuns k (dropSpaces r))
          else String c (replaceSpaceRuns k r)
      end
  end.

Definition dashed (s : string) : string := replaceSpaceRuns (String.length s) s.

(** Template interpolation of a number. *)
Definition ofNat (n : nat) : string := NilEmpty.string_of_uint (Nat.to_uint n).

(** [arr.includes(x)] on an array of strings. *)
Definition arrIncludes (arr : list string) (x : string) : bool :=
  existsb (String.eqb x) arr.

(** [Array.from({ length: n }, (_, i) => f i)]: [ToLength] turns a
    negative length into zero. *)
Definition arrayFrom {A : Type} (n : Z) (f : nat -> A) : list A :=
  map f (seq 0 (Z.to_nat n)).

(** The longest array there is: [2^32 - 1] elements. *)
Definition maxArrayLength : Z := 4294967295.

(** [Array.from({ length: n }, (_, i) => f i)] with the error it can
    raise: an array longer than the longest one is a [RangeError], here
    [None].  Running out of memory on the way to a very long array is not
    part of the model. *)
Definition arrayFromChecked {A : Type} (n : Z) (f : nat -> A) : option (list A) :=
  if (n <=? maxArrayLength)%Z then Some (arrayFrom n f) else None.

(** [[...new Set(arr)]]: the distinct elements, in order of first
    appearance. *)
Definition setAdd (acc : list string) (x : string) : list string :=
  if arrIncludes acc x then acc else acc ++ [x].

Definition unique (arr : list string) : list string :=
  fold_left setAdd arr [].

(** The distinct elements in order of first appearance, by recursion on
    the array: the head, then the rest without it. *)
Fixpoint firstSeen (l : list string) : list string :=
  match l with
  | [] => []
  | x :: r => x :: filter (fun y => negb (String.eqb y x)) (firstSeen r)
  end.

(** Numbers that a division may produce. *)
Inductive num : Type :=
| Num (z : Z)
| NaN
| Infinity.

(** [Math.round((a / b) * 100)] for natural [a] and [b]: rounding to the
    nearest integer, halves upwards.  With [b = 0] the quotient is [NaN]
    (for [a = 0]) or [Infinity].  The quotient is computed exactly; the
    double computation agrees whenever [a / b] is representable, which
    includes every [b] that is a power of two. *)
Definition roundPercent (a b : nat) : num :=
  match b with
  | O => match a with O => NaN | _ => Infinity end
  | _ => Num ((200 * Z.of_nat a + Z.of_nat b) / (2 * Z.of_nat b))
  end.

End Js.


(* ===================================================================== *)
(** ** Quiz.jsx                                                           *)
(* ===================================================================== *)

Module Quiz.

(** The [type] field of a question. *)
Inductive QType : Type := MultipleChoice | ShortAnswer | LongAnswer.

(** What [questions[i]] can be.  A field the value does not have is
    [undefined], here [None]: the literals of the bank leave some fields
    out, and a character of a string has none of them. *)
Record Question : Type := mkQuestion {
  id : option nat;
  text : option string;
  options : option (list string);
  answer : option string;
  explanation : option string;
  type : option QType;
  sampleAnswer : option string;
  points : option nat
}.

Definition choice (i : nat) (t : string) (os : list string) (a e : string) : Question :=
  mkQuestion (Some i) (Some t) (Some os) (Some a) (Some e) (Some MultipleChoice) None None.

Definition written (i : nat) (t : string) (ty : QType) (sa : string) (p : nat) : Question :=
  mkQuestion (Some i) (Some t) None None None (Some ty) (Some sa) (Some p).

(** The three arrays of the object literal [questionBank]. *)
Definition easyBank (topic : string) : list Question :=
  [ choice 1 ("What is the basic definition of " +++ topic +++ "?")
      ["Option A - Basic concept"; "Option B - Advanced concept";
       "Option C - Complex theory"; "Option D - Abstract idea"]
      "Option A - Basic concept"
      (topic +++ " is fundamentally about understanding basic concepts and principles.");
    choice 2 ("Which of the following is most related to " +++ topic +++ "?")
      ["Related concept A"; "Unrelated concept B"; "Different field C"; "Random topic D"]
      "Related concept A"
      ("Related concept A is directly connected to " +++ topic +++ " in fundamental ways.") ].

Definition mediumBank (topic : string) : list Question :=
  [ written 1 ("Explain the key principles of " +++ topic +++ " and their applications.")
      ShortAnswer
      "Key principles include understanding core concepts and applying them effectively."
      10;
    choice 2 ("What are the main advantages and disadvantages of " +++ topic +++ "?")
      ["Advantages outweigh disadvantages"; "Disadvantages outweigh advantages";
       "Balanced pros and cons"; "No clear advantages or disadvantages"]
      "Balanced pros and cons"
      "Most topics have both advantages and disadvantages that need to be carefully considered." ].

Definition hardBank (topic : string) : list Question :=
  [ written 1 ("Analyze the complex relationship between " +++ topic +++ " and its broader implications.")
      LongAnswer
      "This requires deep analysis of interconnected concepts and their far-reaching effects."
      20;
    choice 2 ("Which advanced concept best describes the theoretical framework of " +++ topic +++ "?")
      ["Advanced Framework A"; "Complex Theory B"; "Integrated Model C"; "Holistic Approach D"]
      "Integrated Model C"
      "Integrated models provide the most comprehensive understanding of complex topics." ].

(** What the state cell [questions] can hold: an array of questions; or,
    when the property read on [questionBank] is answered by its prototype,
    the prototype object itself or the string a built-in returned. *)
Inductive Value : Type :=
| Arr (qs : list Question)
| Text (s : string)
| ProtoObject.

(** What the property read [questionBank[difficulty]] can give: one of
    the banks, a built-in method of [Object.prototype], or (for
    [__proto__]) the prototype object. *)
Inductive Read : Type :=
| Bank (qs : list Question)
| Method (name : string)
| Prototype.

(** Own properties of the literal, in source order. *)
Definition questionBank (topic : string) : list (string * Read) :=
  [ ("easy", Bank (easyBank topic));
    ("medium", Bank (mediumBank topic));
    ("hard", Bank (hardBank topic)) ].

(** Properties every object literal inherits from [Object.prototype]. *)
Definition objectPrototype : list (string * Read) :=
  [ ("constructor", Method "Object");
    ("__defineGetter__", Method "__defineGetter__");
    ("__defineSetter__", Method "__defineSetter__");
    ("hasOwnProperty", Method "hasOwnProperty");
    ("__lookupGetter__", Method "__lookupGetter__");
    ("__lookupSetter__", Method "__lookupSetter__");
    ("isPrototypeOf", Method "isPrototypeOf");
    ("propertyIsEnumerable", Method "propertyIsEnumerable");
    ("toString", Method "toString");
    ("valueOf", Method "valueOf");
    ("toLocaleString", Method "toLocaleString");
    ("__proto__", Prototype) ].

Fixpoint assoc (k : string) (l : list (string * Read)) : option Read :=
  match l with
  | [] => None
  | (k', v) :: r => if String.eqb k k' then Some v else assoc k r
  end.

(** The property read [obj[k]]: own properties first, then the prototype;
    [undefined] when neither has the key. *)
Definition getProp (own : list (string * Read)) (k : string) : option Read :=
  match assoc k own with
  | Some v => Some v
  | None => assoc k objectPrototype
  end.

(** [questionBank[difficulty] || questionBank.medium]: arrays, functions
    and objects are all truthy, [undefined] is not. *)
Definition selectedQuestions (topic difficulty : string) : Read :=
  match getProp (questionBank topic) difficulty with
  | Some v => v
  | None => Bank (mediumBank topic)
  end.

(** [setQuestions(x)]: React stores [x], unless [x] is a function, which
    it calls as an updater on the previous value, with no receiver, and
    stores the result.  [Object(prev)] gives [prev] back; [toString]
    without a receiver gives "[object Undefined]"; the other methods of
    [Object.prototype] convert their missing receiver to an object, which
    throws ([None]). *)
Definition setQuestions (x : Read) (prev : Value) : option Value :=
  match x with
  | Bank qs => Some (Arr qs)
  | Prototype => Some ProtoObject
  | Method name =>
      if String.eqb name "Object" then Some prev
      else if String.eqb name "toString" then Some (Text "[object Undefined]")
      else None
  end.

(** A character of a string, read as a question: every field is
    [undefined]. *)
Definition charQuestion : Question :=
  mkQuestion None None None None None None None None.

(** The indexed elements of a value. *)
Definition items (v : Value) : list Question :=
  match v with
  | Arr qs => qs
  | Text s => repeat charQuestion (String.length s)
  | ProtoObject => []
  end.

(** [v.length]: [undefined] on the prototype object. *)
Definition lengthOf (v : Value) : option nat :=
  match v with
  | ProtoObject => None
  | _ => Some (List.length (items v))
  end.

(** [v[i]]: [undefined] out of range. *)
Definition index (v : Value) (i : nat) : option Question :=
  nth_error (items v) i.

(** An entry of [userAnswers]. *)
Record Answer : Type := mkAnswer {
  question : option string;
  userAnswer : string;
  correct : bool
}.

(** The state cells of the component. *)
Record State : Type := mkState {
  questions : Value;
  currentQuestion : nat;
  score : nat;
  selectedAnswer : string;
  showResult : bool;
  timeRemaining : option nat;
  isLoading : bool;
  showExplanation : bool;
  userAnswers : list Answer;
  isAnswered : bool
}.

(** The state at mount: the [useState] initial values. *)
Definition mount (timeLimit : option nat) : State :=
  mkState (Arr []) 0 0 "" false timeLimit true false [] false.

(** [generateQuestions], run by the timer of the first effect; [None]
    when the updater throws. *)
Definition generateQuestions (topic difficulty : string) (st : State) : option State :=
  match setQuestions (selectedQuestions topic difficulty) (questions st) with
  | Some v =>
      Some (mkState v (currentQuestion st) (score st)
                    (selectedAnswer st) (showResult st) (timeRemaining st) false
                    (showExplanation st) (userAnswers st) (isAnswered st))
  | None => None
  end.

(** [currentQ.points || 1]: an absent or zero [points] counts one. *)
Definition pointValue (q : Question) : nat :=
  match points q with
  | Some (S p) => S p
  | _ => 1
  end.

(** [currentQ.type === 'multiple-choice' ? answer === currentQ.answer
     : answer.trim().length > 0]. *)
Definition isCorrect (q : Question) (ans : string) : bool :=
  match type q with
  | Some MultipleChoice =>
      match answer q with
      | Some a => String.eqb ans a
      | None => false
      end
  | _ => 0 <? String.length (Js.trim ans)
  end.

(** How a handler ends: it returns, or a [TypeError] escapes it.  In both
    cases the state updates queued so far are applied. *)
Inductive Outcome : Type :=
| Returned (st : State)
| Threw (st : State).

Definition stateOf (o : Outcome) : State :=
  match o with Returned st | Threw st => st end.

(** [handleAnswer], the [submitAnswer] of the specification. *)
Definition handleAnswer (ans : string) (st : State) : Outcome :=
  if isAnswered st then Returned st
  else
    match index (questions st) (currentQuestion st) with
    | None =>
        (* [currentQ] is [undefined]: reading [currentQ.type] throws after
           [setSelectedAnswer] and [setIsAnswered] *)
        Threw (mkState (questions st) (currentQuestion st) (score st) ans
                       (showResult st) (timeRemaining st) (isLoading st)
                       (showExplanation st) (userAnswers st) true)
    | Some q =>
        let ok := isCorrect q ans in
        Returned (mkState (questions st) (currentQuestion st)
                          (if ok then score st + pointValue q else score st)
                          ans (showResult st) (timeRemaining st) (isLoading st)
                          true
                          (userAnswers st ++ [mkAnswer (text q) ans ok])
                          true)
    end.

(** The argument of [onComplete]. *)
Record Completion : Type := mkCompletion {
  c_score : nat;
  c_total : option nat;
  c_userAnswers : option (list Answer);
  c_percentage : option Js.num;
  c_timeUp : bool
}.

(** [Math.round((score / questions.length) * 100)]. *)
Definition percentage (sc : nat) (len : option nat) : Js.num :=
  match len with
  | Some n => Js.roundPercent sc n
  | None => Js.NaN
  end.

(** [currentQuestion + 1 < questions.length]: false against [undefined]. *)
Definition hasNext (st : State) : bool :=
  match lengthOf (questions st) with
  | Some n => currentQuestion st + 1 <? n
  | None => false
  end.

(** [nextQuestion], the [advance] of the specification: the new state and
    the call of [onComplete], if any. *)
Definition nextQuestion (st : State) : State * option Completion :=
  if hasNext st then
    (mkState (questions st) (currentQuestion st + 1) (score st) ""
             (showResult st) (timeRemaining st) (isLoading st) false
             (userAnswers st) false,
     None)
  else
    (mkState (questions st) (currentQuestion st) (score st) (selectedAnswer st)
             true (timeRemaining st) (isLoading st) (showExplanation st)
             (userAnswers st) (isAnswered st),
     Some (mkCompletion (score st) (lengthOf (questions st))
                        (Some (userAnswers st))
                        (Some (percentage (score st) (lengthOf (questions st))))
                        false)).

(** [handleTimeUp]: the result is shown and [onComplete] gets the score
    and the number of questions only. *)
Definition handleTimeUp (st : State) : State * Completion :=
  (mkState (questions st) (currentQuestion st) (score st) (selectedAnswer st)
           true (timeRemaining st) (isLoading st) (showExplanation st)
           (userAnswers st) (isAnswered st),
   mkCompletion (score st) (lengthOf (questions st)) None None true).

(** [resetQuiz]. *)
Definition resetQuiz (timeLimit : option nat) (st : State) : State :=
  mkState (questions st) 0 0 "" false timeLimit (isLoading st) false [] false.

(** The question screen reads [question.text] of
    [questions[currentQuestion]]: [None] is the [TypeError] of reading a
    property of [undefined], which takes the component down. *)
Definition questionText (st : State) : option (option string) :=
  match index (questions st) (currentQuestion st) with
  | Some q => Some (text q)
  | None => None
  end.

(** A user action on a session. *)
Inductive Action : Type :=
| SubmitAnswer (value : string)
| Advance.

(** A session together with the log of [onComplete] calls. *)
Record Session : Type := mkSession {
  st : State;
  completed : list Completion
}.

Definition step (a : Action) (s : Session) : Session :=
  match a with
  | SubmitAnswer v => mkSession (stateOf (handleAnswer v (st s))) (completed s)
  | Advance =>
      let '(st', c) := nextQuestion (st s) in
      mkSession st' (completed s ++ match c with Some x => [x] | None => [] end)
  end.

Definition run (acts : list Action) (s : Session) : Session :=
  fold_left (fun acc a => step a acc) acts s.

(** The mounted component once [generateQuestions] has run, no second of
    the clock counted; [None] when loading threw.  With a time limit the
    clock has by then been running since mount: module [QuizTimer] has
    its ticks. *)
Definition loaded (topic difficulty : string) (timeLimit : option nat) : option Session :=
  match generateQuestions topic difficulty (mount timeLimit) with
  | Some s => Some (mkSession s [])
  | None => None
  end.

(** A session over an arbitrary content of [questions]: first question,
    nothing answered, no score, and the clock at [timeLimit]. *)
Definition sessionOf (v : Value) (timeLimit : option nat) : Session :=
  mkSession (mkState v 0 0 "" false timeLimit false false [] false) [].

(** The questions not yet submitted: those from the current one on, or
    from the next one on once the current one is answered. *)
Definition pending (s : State) : list Question :=
  skipn (currentQuestion s + (if isAnswered s then 1 else 0)) (items (questions s)).

Definition sumPoints (qs : list Question) : nat := list_sum (map pointValue qs).

(** Sum of the point values of the questions held. *)
Definition totalPoints (v : Value) : nat := sumPoints (items v).

(** What no session exceeds: the points earned plus the points still to
    be won never pass the total. *)
Definition within (s : State) : Prop :=
  score s + sumPoints (pending s) <= totalPoints (questions s).

End Quiz.

(* ===================================================================== *)
(** ** QuestionPaper.jsx                                                  *)
(* ===================================================================== *)

Module QuestionPaper.

(** A generated question; [options] is written for the multiple-choice
    questions only. *)
Record PaperQuestion : Type := mkPaperQuestion {
  id : nat;
  question : string;
  options : option (list string);
  marks : Z;
  difficulty : string
}.

Record Section_ : Type := mkSection {
  part : string;
  title : string;
  instructions : string;
  questions : list PaperQuestion;
  totalMarks : Z
}.

Record Paper : Type := mkPaper {
  p_title : string;
  p_subject : string;
  p_timeLimit : Z;
  p_totalMarks : Z;
  p_generatedAt : string;
  p_sections : list Section_
}.

(** The state cell [questionCount]; the inputs store
    [parseInt(e.target.value) || 0], any integer. *)
Record QuestionCount : Type := mkCount {
  mcq : Z;
  short : Z;
  long : Z
}.

Record State : Type := mkState {
  paper : option Paper;
  isGenerating : bool;
  selectedTopics : list string;
  questionCount : QuestionCount;
  timeLimit : Z
}.

(** The [useState] initial values. *)
Definition mount : State :=
  mkState None false [] (mkCount 10 5 3) 120.

(** [calculateTotalMarks]. *)
Definition calculateTotalMarks (qc : QuestionCount) : Z :=
  (mcq qc * 1 + short qc * 3 + long qc * 10)%Z.

(** [arr.join(', ')]. *)
Fixpoint join (l : list string) : string :=
  match l with
  | [] => ""
  | [x] => x
  | x :: r => x +++ ", " +++ join r
  end.

(** [selectedTopics[0] || fallback]: the empty string is falsy too. *)
Definition firstTopicOr (topics : list string) (fallback : string) : string :=
  match topics with
  | t :: _ => if Js.truthy t then t else fallback
  | [] => fallback
  end.

(** [difficulty.charAt(0).toUpperCase() + difficulty.slice(1)]. *)
Definition capitalize (s : string) : string :=
  Js.toUpperCase (Js.charAt0 s) +++ Js.slice1 s.

Definition mcqQuestion (difficulty : string) (topics : list string) (i : nat) : PaperQuestion :=
  mkPaperQuestion (i + 1)
    ("Sample MCQ " +++ Js.ofNat (i + 1) +++ " based on "
       +++ firstTopicOr topics "uploaded content" +++ "?")
    (Some ["Option A"; "Option B"; "Option C"; "Option D"])
    1 difficulty.

Definition shortQuestion (difficulty : string) (topics : list string) (i : nat) : PaperQuestion :=
  mkPaperQuestion (i + 1)
    ("Short answer question " +++ Js.ofNat (i + 1) +++ " about "
       +++ firstTopicOr topics "document content" +++ ".")
    None 3 difficulty.

Definition longQuestion (difficulty : string) (topics : list string) (i : nat) : PaperQuestion :=
  mkPaperQuestion (i + 1)
    ("Detailed question " +++ Js.ofNat (i + 1) +++ " requiring comprehensive analysis of "
       +++ firstTopicOr topics "uploaded material" +++ ".")
    None 10 difficulty.

(** The object [samplePaper] built inside the timer of [generatePaper];
    [today] is [new Date().toLocaleDateString()]. *)
Definition samplePaper (difficulty today : string) (s : State) : Paper :=
  let qc := questionCount s in
  let ts := selectedTopics s in
  mkPaper
    (capitalize difficulty +++ " Level Question Paper")
    (if 0 <? List.length ts then join ts else "General Studies")
    (timeLimit s)
    (calculateTotalMarks qc)
    today
    [ mkSection "A" "Multiple Choice Questions"
        "Choose the correct answer from the given options."
        (Js.arrayFrom (mcq qc) (mcqQuestion difficulty ts))
        (mcq qc);
      mkSection "B" "Short Answer Questions"
        "Answer in 2-3 sentences."
        (Js.arrayFrom (short qc) (shortQuestion difficulty ts))
        (short qc * 3)%Z;
      mkSection "C" "Long Answer Questions"
        "Answer in detail with examples."
        (Js.arrayFrom (long qc) (longQuestion difficulty ts))
        (long qc * 10)%Z ].

(** [generatePaper]: the click, then the timer three seconds later, which
    stores the paper and passes it to [onGenerate]. *)
Definition generatePaper_click (s : State) : State :=
  mkState (paper s) true (selectedTopics s) (questionCount s) (timeLimit s).

Definition generatePaper_timer (difficulty today : string) (s : State) : State * Paper :=
  let p := samplePaper difficulty today s in
  (mkState (Some p) false (selectedTopics s) (questionCount s) (timeLimit s), p).

(** The paper a configuration leads to. *)
Definition generate (difficulty today : string) (topics : list string)
           (mcqCount shortCount longCount limit : Z) : Paper :=
  snd (generatePaper_timer difficulty today
         (generatePaper_click
            (mkState None false topics (mkCount mcqCount shortCount longCount) limit))).

(** [samplePaper] with the [RangeError] of its three [Array.from] calls.
    The counts are as the inputs store them; for counts from 0 up a paper
    only exists below 2^32 questions a section, where the sums of the
    code, made on doubles, are the exact ones written here. *)
Definition samplePaperChecked (difficulty today : string) (s : State) : option Paper :=
  let qc := questionCount s in
  let ts := selectedTopics s in
  match Js.arrayFromChecked (mcq qc) (mcqQuestion difficulty ts) with
  | None => None
  | Some a =>
      match Js.arrayFromChecked (short qc) (shortQuestion difficulty ts) with
      | None => None
      | Some b =>
          match Js.arrayFromChecked (long qc) (longQuestion difficulty ts) with
          | None => None
          | Some c =>
              Some (mkPaper
                      (capitalize difficulty +++ " Level Question Paper")
                      (if 0 <? List.length ts then join ts else "General Studies")
                      (timeLimit s)
                      (calculateTotalMarks qc)
                      today
                      [ mkSection "A" "Multiple Choice Questions"
                          "Choose the correct answer from the given options."
                          a (mcq qc);
                        mkSection "B" "Short Answer Questions"
                          "Answer in 2-3 sentences."
                          b (short qc * 3)%Z;
                        mkSection "C" "Long Answer Questions"
                          "Answer in detail with examples."
                          c (long qc * 10)%Z ])
          end
      end
  end.

(** The timer of [generatePaper] with that error: when the callback
    throws, neither [setPaper] nor [onGenerate] nor
    [setIsGenerating(false)] is reached. *)
Definition generatePaper_timerChecked (difficulty today : string) (s : State)
  : State * option Paper :=
  match samplePaperChecked difficulty today s with
  | Some p =>
      (mkState (Some p) false (selectedTopics s) (questionCount s) (timeLimit s), Some p)
  | None => (s, None)
  end.

(** The paper a configuration leads to, if one is made. *)
Definition generated (difficulty today : string) (topics : list string)
           (mcqCount shortCount longCount limit : Z) : option Paper :=
  snd (generatePaper_timerChecked difficulty today
         (generatePaper_click
            (mkState None false topics (mkCount mcqCount shortCount longCount) limit))).

(** Sum of the [marks] of a list of questions. *)
Definition sumMarks (qs : list PaperQuestion) : Z :=
  fold_right (fun q acc => (marks q + acc)%Z) 0%Z qs.

(** A multiple-choice question carries options, the other two kinds none. *)
Definition isMcq (q : PaperQuestion) : bool :=
  match options q with Some _ => true | None => false end.

(** What the specification asks of a section: its label, the number of
    its questions, their kind and worth, and a total equal to the sum of
    their marks. *)
Definition sectionAsSpecified (s : Section_) (label : string)
           (count worth : Z) (mcqKind : bool) : Prop :=
  part s = label
  /\ Z.of_nat (List.length (questions s)) = count
  /\ Forall (fun q => marks q = worth /\ isMcq q = mcqKind) (questions s)
  /\ totalMarks s = sumMarks (questions s).

(** What it asks of the paper of a configuration. *)
Definition paperAsSpecified (p : Paper) (mcqCount shortCount longCount : Z) : Prop :=
  p_totalMarks p = (mcqCount * 1 + shortCount * 3 + longCount * 10)%Z
  /\ exists a b c,
       p_sections p = [a; b; c]
       /\ sectionAsSpecified a "A" mcqCount 1 true
       /\ sectionAsSpecified b "B" shortCount 3 false
       /\ sectionAsSpecified c "C" longCount 10 false.

End QuestionPaper.

(* ===================================================================== *)
(** ** PdfUploader.jsx                                                    *)
(* ===================================================================== *)

Module PdfUploader.

(** The part of a browser [File] the component reads. *)
Record File : Type := mkFile {
  f_name : string;
  f_type : string
}.

(** A preview reference: the result of [URL.createObjectURL(file)], or a
    literal address. *)
Inductive Url : Type :=
| ObjectURL (f : File)
| Href (s : string).

(** The record handed to [onFileUpload]. *)
Record UploadedFile : Type := mkUploaded {
  name : string;
  type : string;
  url : Url;
  topics : option (list string)
}.

Definition validTypes : list string :=
  [ "application/pdf";
    "application/vnd.openxmlformats-officedocument.wordprocessingml.document";
    "text/plain" ].

Definition invalidTypeMessage : string := "Please upload a PDF, DOCX, or TXT file.".

(** Calls made on the two callback props. *)
Inductive Call : Type :=
| OnFileUpload (fileData : UploadedFile)
| OnTopicDetected (topic : option string).

(** The state cells the handler writes, the timers it has started and the
    calls made so far. *)
Record State : Type := mkState {
  selectedFile : option File;
  isLoading : bool;
  previewUrl : option string;
  error : option string;
  timers : list File;
  calls : list Call
}.

Definition mount : State := mkState None false None None [] [].

(** [file.name.split('.')[0]]. *)
Definition topicOfName (n : string) : string :=
  match Js.split "." n with
  | h :: _ => h
  | [] => ""
  end.

(** The object [fileData] of the timer callback. *)
Definition fileData (f : File) : UploadedFile :=
  mkUploaded (f_name f) (f_type f) (ObjectURL f) (Some [topicOfName (f_name f)]).

(** [fileData.topics[0]]. *)
Definition firstTopic (u : UploadedFile) : option string :=
  match topics u with
  | Some (t :: _) => Some t
  | _ => None
  end.

(** [handleFileChange]; [files] is [e.target.files]. *)
Definition handleFileChange (files : list File) (s : State) : State :=
  match files with
  | [] => s
  | file :: _ =>
      if negb (Js.arrIncludes validTypes (f_type file)) then
        mkState None (isLoading s) (previewUrl s) (Some invalidTypeMessage)
                (timers s) (calls s)
      else
        mkState (Some file) true (previewUrl s) None
                (timers s ++ [file]) (calls s)
  end.

(** The oldest pending timer fires, two seconds after its upload. *)
Definition timerFires (s : State) : State :=
  match timers s with
  | [] => s
  | file :: rest =>
      let d := fileData file in
      mkState None false None (error s) rest
              (calls s ++ [OnFileUpload d; OnTopicDetected (firstTopic d)])
  end.

(** The [FileReader] of the preview effect delivers its data URL. *)
Definition readerLoads (dataUrl : string) (s : State) : State :=
  mkState (selectedFile s) (isLoading s) (Some dataUrl) (error s) (timers s) (calls s).

(** The file name with its extension stripped, as the specification words
    it: the name up to its last dot, the whole name when it has none. *)
Fixpoint hasDot (s : string) : bool :=
  match s with
  | EmptyString => false
  | String c r => Ascii.eqb c "." || hasDot r
  end.

Fixpoint stripExtension (s : string) : string :=
  match s with
  | EmptyString => EmptyString
  | String c r =>
      if Ascii.eqb c "." && negb (hasDot r) then EmptyString
      else String c (stripExtension r)
  end.

Fixpoint countDots (s : string) : nat :=
  match s with
  | EmptyString => 0
  | String c r => (if Ascii.eqb c "." then 1 else 0) + countDots r
  end.

End PdfUploader.

(* ===================================================================== *)
(** ** Resources.jsx                                                      *)
(* ===================================================================== *)

Module Resources.

Inductive ResType : Type := Video | Article | Interactive | Book.


(** A resource object.  The fields that only some literals write are
    options; [tags] is among them, the default resource has none. *)
Record Resource : Type := mkResource {
  id : string;
  type : ResType;
  category : string;
  title : string;
  description : string;
  url : string;
  thumbnail : string;
  duration : option string;
  difficulty : string;
  rating : Q;
  views : option string;
  topic : string;
  author : string;
  tags : option (list string);
  readTime : option string;
  publishDate : option string;
  features : option (list string);
  pages : option nat;
  isbn : option string
}.

Definition youtube : string := "https://www.youtube.com/embed/dQw4w9WgXcQ".
Definition youtubeThumb : string := "https://img.youtube.com/vi/dQw4w9WgXcQ/maxresdefault.jpg".

(** The two videos pushed for a topic. *)
Definition videos (t : string) (i : nat) : list Resource :=
  [ mkResource ("video-" +++ Js.ofNat i +++ "-1") Video "video"
      (t +++ " - Complete Tutorial")
      ("Comprehensive video tutorial covering all aspects of " +++ t)
      youtube youtubeThumb (Some "45:30") "Beginner" 4.8 (Some "2.1M") t
      "EduTech Academy" (Some ["tutorial"; "basics"; Js.toLowerCase t])
      None None None None None;
    mkResource ("video-" +++ Js.ofNat i +++ "-2") Video "video"
      ("Advanced " +++ t +++ " Concepts")
      ("Deep dive into advanced concepts and real-world applications of " +++ t)
      youtube youtubeThumb (Some "1:12:45") "Advanced" 4.9 (Some "856K") t
      "Tech Masters" (Some ["advanced"; "concepts"; Js.toLowerCase t])
      None None None None None ].

(** The two articles. *)
Definition articles (t : string) (i : nat) : list Resource :=
  [ mkResource ("article-" +++ Js.ofNat i +++ "-1") Article "article"
      ("Understanding " +++ t +++ ": A Comprehensive Guide")
      ("In-depth article explaining the fundamentals and applications of " +++ t)
      ("https://example.com/" +++ Js.dashed (Js.toLowerCase t) +++ "-guide")
      "https://via.placeholder.com/300x200?text=Article"
      None "Intermediate" 4.6 None t
      "Knowledge Hub" (Some ["guide"; "fundamentals"; Js.toLowerCase t])
      (Some "12 min read") (Some "2024-01-15") None None None;
    mkResource ("article-" +++ Js.ofNat i +++ "-2") Article "article"
      (t +++ " Best Practices and Tips")
      ("Expert tips and best practices for mastering " +++ t)
      ("https://example.com/" +++ Js.dashed (Js.toLowerCase t) +++ "-tips")
      "https://via.placeholder.com/300x200?text=Tips"
      None "Intermediate" 4.7 None t
      "Expert Insights" (Some ["tips"; "best-practices"; Js.toLowerCase t])
      (Some "8 min read") (Some "2024-02-20") None None None ].

(** The interactive item. *)
Definition interactives (t : string) (i : nat) : list Resource :=
  [ mkResource ("interactive-" +++ Js.ofNat i +++ "-1") Interactive "interactive"
      (t +++ " Interactive Simulator")
      ("Hands-on interactive tool to practice and experiment with " +++ t +++ " concepts")
      ("https://simulator.example.com/" +++ Js.toLowerCase t)
      "https://via.placeholder.com/300x200?text=Interactive"
      None "All Levels" 4.5 None t
      "Interactive Learning" (Some ["interactive"; "practice"; Js.toLowerCase t])
      None None
      (Some ["Real-time feedback"; "Multiple scenarios"; "Progress tracking"])
      None None ].

(** The book. *)
Definition books (t : string) (i : nat) : list Resource :=
  [ mkResource ("book-" +++ Js.ofNat i +++ "-1") Book "book"
      ("The Complete " +++ t +++ " Handbook")
      ("Comprehensive reference book covering everything about " +++ t)
      ("https://books.example.com/" +++ Js.toLowerCase t +++ "-handbook.pdf")
      "https://via.placeholder.com/300x400?text=Book"
      None "All Levels" 4.8 None t
      "Dr. Academic Expert" (Some ["reference"; "comprehensive"; Js.toLowerCase t])
      None None None (Some 324) (Some "978-0123456789") ].

(** The array [defaultResources]. *)
Definition defaultResources : list Resource :=
  [ mkResource "default-1" Video "video"
      "Getting Started with Learning"
      "Learn how to make the most of your study sessions"
      youtube youtubeThumb (Some "25:15") "Beginner" 4.7 (Some "1.2M")
      "Study Skills" "Learning Academy" None
      None None None None None ].

(** [uploadedFiles.flatMap(file => file.topics || [])]. *)
Definition allTopics (files : list PdfUploader.UploadedFile) : list string :=
  flat_map (fun f => match PdfUploader.topics f with Some ts => ts | None => [] end) files.

Definition uniqueTopics (files : list PdfUploader.UploadedFile) : list string :=
  Js.unique (allTopics files).

(** The body of [uniqueTopics.forEach((topic, topicIndex) => ...)]: four
    [push] calls on the array under construction. *)
Definition pushTopic (generated : list Resource) (t : string) (i : nat) : list Resource :=
  (((generated ++ videos t i) ++ articles t i) ++ interactives t i) ++ books t i.

Fixpoint forEachTopic (ts : list string) (i : nat) (generated : list Resource) : list Resource :=
  match ts with
  | [] => generated
  | t :: r => forEachTopic r (S i) (pushTopic generated t i)
  end.

(** The catalog [generateResources] computes. *)
Definition catalog (files : list PdfUploader.UploadedFile) : list Resource :=
  if 0 <? List.length files then forEachTopic (uniqueTopics files) 0 []
  else defaultResources.

(** The state cells of the component. *)
Record State : Type := mkState {
  resources : list Resource;
  filteredResources : list Resource;
  isLoading : bool;
  selectedCategory : string;
  favorites : list string;
  viewMode : string
}.

Definition mount : State := mkState [] [] true "all" [] "grid".

(** [generateResources], run by the timer of the first effect. *)
Definition generateResources (files : list PdfUploader.UploadedFile) (s : State) : State :=
  let c := catalog files in
  mkState c c false (selectedCategory s) (favorites s) (viewMode s).

(** [arr.filter(p)] for a predicate that may throw: [None] is the
    [TypeError] that escapes. *)
Fixpoint filterThrowing {A : Type} (p : A -> option bool) (l : list A) : option (list A) :=
  match l with
  | [] => Some []
  | x :: r =>
      match p x with
      | None => None
      | Some b =>
          match filterThrowing p r with
          | None => None
          | Some r' => Some (if b then x :: r' else r')
          end
      end
  end.

(** [field.toLowerCase().includes(searchQuery.toLowerCase())]. *)
Definition hit (field q : string) : bool :=
  Js.includes (Js.toLowerCase field) (Js.toLowerCase q).

(** The callback of the search filter.  [||] evaluates from the left and
    stops at the first true operand; [resource.tags.some] throws when
    [tags] is [undefined]. *)
Definition matchesQuery (q : string) (r : Resource) : option bool :=
  if hit (title r) q then Some true
  else if hit (description r) q then Some true
  else if hit (topic r) q then Some true
  else match tags r with
       | None => None
       | Some ts => Some (existsb (fun tag => hit tag q) ts)
       end.

(** The category step of the filter effect. *)
Definition byCategory (cat : string) (rs : list Resource) : list Resource :=
  if negb (String.eqb cat "all") then filter (fun r => String.eqb (category r) cat) rs
  else rs.

(** The value the filter effect passes to [setFilteredResources]. *)
Definition filtered (rs : list Resource) (cat q : string) : option (list Resource) :=
  let f := byCategory cat rs in
  if Js.truthy (Js.trim q) then filterThrowing (matchesQuery q) f
  else Some f.

(** The filter effect on the state; [None] when the effect throws. *)
Definition filterEffect (searchQuery : string) (s : State) : option State :=
  match filtered (resources s) (selectedCategory s) searchQuery with
  | None => None
  | Some f =>
      Some (mkState (resources s) f (isLoading s) (selectedCategory s)
                    (favorites s) (viewMode s))
  end.

(** [toggleFavorite]: the updater passed to [setFavorites]. *)
Definition toggle (resourceId : string) (prev : list string) : list string :=
  if Js.arrIncludes prev resourceId
  then filter (fun i => negb (String.eqb i resourceId)) prev
  else prev ++ [resourceId].

Definition toggleFavorite (resourceId : string) (s : State) : State :=
  mkState (resources s) (filteredResources s) (isLoading s) (selectedCategory s)
          (toggle resourceId (favorites s)) (viewMode s).

(** [favorites.includes(resource.id)], what the heart button shows. *)
Definition isFavorite (s : State) (resourceId : string) : bool :=
  Js.arrIncludes (favorites s) resourceId.

(** The search predicate as the specification words it: the lower-cased
    query occurs in the lower-cased title, description, topic or one of
    the tags. *)
Definition tagsOf (r : Resource) : list string :=
  match tags r with Some ts => ts | None => [] end.

Definition textMatch (q : string) (r : Resource) : bool :=
  hit (title r) q || hit (description r) q || hit (topic r) q
  || existsb (fun tag => hit tag q) (tagsOf r).

Definition categoryMatch (cat : string) (r : Resource) : bool :=
  String.eqb cat "all" || String.eqb (category r) cat.

(** The cluster of a topic at a position: two videos, two articles, one
    interactive item and one book, and the catalog as a sequence of
    clusters. *)
Definition cluster (t : string) (i : nat) : list Resource :=
  videos t i ++ articles t i ++ interactives t i ++ books t i.

Fixpoint clusters (ts : list string) (i : nat) : list Resource :=
  match ts with
  | [] => []
  | t :: r => cluster t i ++ clusters r (S i)
  end.




End Resources.

(* ===================================================================== *)
(** ** Quiz.jsx: clock, countdown and retake                              *)
(* ===================================================================== *)

Module QuizTimer.
Import Quiz.

(** [s.padStart(2, '0')]. *)
Definition padStart2 (s : string) : string :=
  match String.length s with
  | 0 => "00"
  | 1 => "0" +++ s
  | _ => s
  end.

(** [formatTime]: minutes, a colon, and the seconds on two digits. *)
Definition formatTime (seconds : nat) : string :=
  Js.ofNat (seconds / 60) +++ ":" +++ padStart2 (Js.ofNat (seconds mod 60)).

(** Strings made of decimal digits only. *)
Definition isDigit (c : ascii) : bool := (48 <=? Js.code c) && (Js.code c <=? 57).

Fixpoint allDigits (s : string) : bool :=
  match s with
  | EmptyString => true
  | String c r => isDigit c && allDigits r
  end.

(** What the timer effect does when it runs. *)
Inductive TimerAction : Type :=
| Schedule      (* [setTimeout(() => setTimeRemaining(timeRemaining - 1), 1000)] *)
| TimeUp        (* [handleTimeUp()] *)
| Idle.

(** Truthiness of [timeLimit]: [null] and [0] are falsy. *)
Definition limitSet (timeLimit : option nat) : bool :=
  match timeLimit with
  | Some (S _) => true
  | _ => false
  end.

(** [timeRemaining > 0] and [timeRemaining === 0]; [null > 0] is false. *)
Definition remainingPositive (st : State) : bool :=
  match timeRemaining st with
  | Some (S _) => true
  | _ => false
  end.

Definition remainingZero (st : State) : bool :=
  match timeRemaining st with
  | Some 0 => true
  | _ => false
  end.

(** The body of the timer effect. *)
Definition timerEffect (timeLimit : option nat) (st : State) : TimerAction :=
  if limitSet timeLimit && remainingPositive st && negb (showResult st) then Schedule
  else if remainingZero st then TimeUp
  else Idle.

(** The timer callback, [setTimeRemaining(timeRemaining - 1)]; it is only
    scheduled on a positive number. *)
Definition timerFires (st : State) : State :=
  mkState (questions st) (currentQuestion st) (score st) (selectedAnswer st)
          (showResult st)
          (match timeRemaining st with Some n => Some (n - 1) | None => None end)
          (isLoading st) (showExplanation st) (userAnswers st) (isAnswered st).

(** [k] seconds during which the timer is running. *)
Definition seconds (k : nat) (st : State) : State := Nat.iter k timerFires st.

(** What happens to a running quiz: a user action, a second counted by
    the timer, or the effect calling [handleTimeUp]. *)
Inductive QuizEvent : Type :=
| Act (a : Action)
| Tick
| TimedOut.

Definition stepEvent (e : QuizEvent) (s : Session) : Session :=
  match e with
  | Act a => step a s
  | Tick => mkSession (timerFires (st s)) (completed s)
  | TimedOut =>
      let '(st', c) := handleTimeUp (st s) in
      mkSession st' (completed s ++ [c])
  end.

Definition runEvents (es : list QuizEvent) (s : Session) : Session :=
  fold_left (fun acc e => stepEvent e acc) es s.






(** The current index is below [n], and the transcript has at most one
    entry per question reached. *)
Definition inRange (n : nat) (s : State) : Prop :=
  currentQuestion s < n
  /\ List.length (userAnswers s) <= currentQuestion s + (if isAnswered s then 1 else 0).

End QuizTimer.

(* ===================================================================== *)
(** ** QuestionPaper.jsx: topics                                          *)
(* ===================================================================== *)

Module QuestionPaperTopics.
Import QuestionPaper.

(** [handleTopicToggle]: the updater passed to [setSelectedTopics]. *)
Definition toggled (topic : string) (prev : list string) : list string :=
  if Js.arrIncludes prev topic
  then filter (fun t => negb (String.eqb t topic)) prev
  else prev ++ [topic].

Definition handleTopicToggle (topic : string) (s : State) : State :=
  mkState (paper s) (isGenerating s) (toggled topic (selectedTopics s))
          (questionCount s) (timeLimit s).

(** [uploadedFiles.flatMap(file => file.topics || [file.name.split('.')[0]])]:
    an array, even an empty one, is truthy. *)
Definition availableTopics (files : list PdfUploader.UploadedFile) : list string :=
  flat_map (fun f =>
              match PdfUploader.topics f with
              | Some ts => ts
              | None => [PdfUploader.topicOfName (PdfUploader.name f)]
              end) files.

(** The check boxes of the topics [ts] are clicked one after the other. *)
Definition afterToggles (ts : list string) (s : State) : State :=
  fold_left (fun acc t => handleTopicToggle t acc) ts s.

(** The checkbox of a topic: [selectedTopics.includes(topic)]. *)
Definition checked (s : State) (topic : string) : bool :=
  Js.arrIncludes (selectedTopics s) topic.

(** All the questions of a paper, section after section. *)
Definition allQuestions (p : Paper) : list PaperQuestion :=
  flat_map questions (p_sections p).

End QuestionPaperTopics.

(* ===================================================================== *)
(** ** PdfUploader.jsx: the chat                                          *)
(* ===================================================================== *)

Module Chat.

Inductive Sender : Type := User | Ai.

Record Message : Type := mkMessage {
  sender : Sender;
  text : string;
  timestamp : nat
}.

(** The result of [Math.floor(Math.random() * responses.length)]. *)
Inductive Pick : Type := P0 | P1 | P2 | P3.

Definition responses (p : Pick) : string :=
  match p with
  | P0 => "Based on your Machine Learning and Data Science documents, I can see you're exploring foundational concepts. Would you like me to summarize the key algorithms discussed?"
  | P1 => "I've analyzed your documents and found interesting connections between supervised learning techniques and data preprocessing methods. What specific area would you like to dive deeper into?"
  | P2 => "Your documents cover essential topics in ML and Data Science. I can help explain concepts like neural networks, decision trees, or statistical analysis. What interests you most?"
  | P3 => "Great question! From your uploaded materials, I can provide insights on data visualization, model evaluation, or feature engineering. Which topic would be most helpful?"
  end.

Definition suggestions : list string :=
  [ "What are the main topics in my documents?";
    "Can you summarize the key points?";
    "Explain machine learning concepts";
    "Compare different algorithms discussed" ].

(** The chat cells, and the number of reply timers running. *)
Record State : Type := mkState {
  showChat : bool;
  messages : list Message;
  input : string;
  isTyping : bool;
  replies : nat
}.

Definition mount : State := mkState false [] "" false 0.

(** [handleSend]; [now] is [Date.now()]. *)
Definition handleSend (now : nat) (s : State) : State :=
  if Js.truthy (Js.trim (input s)) then
    mkState (showChat s) (messages s ++ [mkMessage User (input s) now]) "" true
            (S (replies s))
  else s.

(** A reply timer fires, a second and a half after its message. *)
Definition replyFires (p : Pick) (now : nat) (s : State) : State :=
  match replies s with
  | O => s
  | S k =>
      mkState (showChat s) (messages s ++ [mkMessage Ai (responses p) now])
              (input s) false k
  end.

(** [handleKeyPress]: Enter without Shift sends. *)
Definition handleKeyPress (key : string) (shiftKey : bool) (now : nat) (s : State) : State :=
  if String.eqb key "Enter" && negb shiftKey then handleSend now s else s.

(** [handleSuggestionClick] and the [onChange] of the text area. *)
Definition setInput (v : string) (s : State) : State :=
  mkState (showChat s) (messages s) v (isTyping s) (replies s).

Definition handleSuggestionClick (suggestion : string) (s : State) : State :=
  setInput suggestion s.

Definition setShowChat (b : bool) (s : State) : State :=
  mkState b (messages s) (input s) (isTyping s) (replies s).

Inductive Event : Type :=
| Type_ (v : string)
| Suggest (v : string)
| Send (now : nat)
| Key (key : string) (shiftKey : bool) (now : nat)
| Reply (p : Pick) (now : nat)
| Open
| Close.

Definition step (e : Event) (s : State) : State :=
  match e with
  | Type_ v => setInput v s
  | Suggest v => handleSuggestionClick v s
  | Send now => handleSend now s
  | Key k sh now => handleKeyPress k sh now s
  | Reply p now => replyFires p now s
  | Open => setShowChat true s
  | Close => setShowChat false s
  end.

Definition run (es : list Event) (s : State) : State :=
  fold_left (fun acc e => step e acc) es s.

Definition isUser (m : Message) : bool :=
  match sender m with User => true | Ai => false end.

Definition isAi (m : Message) : bool :=
  match sender m with User => false | Ai => true end.

Definition count (p : Message -> bool) (ms : list Message) : nat :=
  List.length (filter p ms).

(** What every chat state satisfies: each user message is matched by a
    reply given or a reply timer running, user messages are not blank,
    replies are canned, and the typing indicator is only on while a
    reply is due. *)
Definition consistent (s : State) : Prop :=
  count isUser (messages s) = count isAi (messages s) + replies s
  /\ Forall (fun m => isUser m = true -> Js.truthy (Js.trim (text m)) = true) (messages s)
  /\ Forall (fun m => isAi m = true -> exists p, text m = responses p) (messages s)
  /\ (isTyping s = true -> 0 < replies s).

End Chat.

(* ===================================================================== *)
(** ** PdfUploader.jsx: what the page shows                               *)
(* ===================================================================== *)

Module PdfUploaderView.

(** The icons of [getFileIcon], by name, and the label written after the
    name of a file. *)
Inductive Icon : Type := PageIcon | MemoIcon | ClipboardIcon | FolderIcon.

Definition getFileIcon (fileType : string) : Icon :=
  if Js.includes fileType "pdf" then PageIcon
  else if Js.includes fileType "word" then MemoIcon
  else if Js.includes fileType "text" then ClipboardIcon
  else FolderIcon.

Definition fileLabel (fileType : string) : string :=
  if Js.includes fileType "pdf" then "PDF"
  else if Js.includes fileType "word" then "DOCX"
  else "TXT".

(** The two files shown while nothing is uploaded. *)
Definition demoFiles : list PdfUploader.UploadedFile :=
  [ PdfUploader.mkUploaded "Machine Learning Basics.pdf" "application/pdf"
      (PdfUploader.Href "#") (Some ["Machine Learning"]);
    PdfUploader.mkUploaded "Data Science Guide.docx"
      "application/vnd.openxmlformats-officedocument.wordprocessingml.document"
      (PdfUploader.Href "#") (Some ["Data Science"]) ].

(** [uploadedFiles.length > 0 ? uploadedFiles : demoFiles]. *)
Definition currentFiles (uploadedFiles : list PdfUploader.UploadedFile)
  : list PdfUploader.UploadedFile :=
  if 0 <? List.length uploadedFiles then uploadedFiles else demoFiles.

(** A card of the list of documents: icon, name, label and
    [file.topics[0]]. *)
Record FileCard : Type := mkCard {
  cardIcon : Icon;
  cardName : string;
  cardLabel : string;
  cardTopic : option string
}.

(** Reading [file.topics[0]] throws when the record has no [topics]. *)
Definition card (f : PdfUploader.UploadedFile) : option FileCard :=
  match PdfUploader.topics f with
  | Some ts =>
      Some (mkCard (getFileIcon (PdfUploader.type f)) (PdfUploader.name f)
                   (fileLabel (PdfUploader.type f)) (nth_error ts 0))
  | None => None
  end.

Fixpoint cards (fs : list PdfUploader.UploadedFile) : option (list FileCard) :=
  match fs with
  | [] => Some []
  | f :: r =>
      match card f, cards r with
      | Some c, Some cs => Some (c :: cs)
      | _, _ => None
      end
  end.

(** The upload box: the loader with "Processing your document...", or
    the invitation to drop or choose files with its hint on the accepted
    formats. *)
Inductive UploadBox : Type := Processing | DropPrompt.

(** The body of the chat: the welcome with the suggestions while there
    is no message, the messages and the typing bubble afterwards. *)
Inductive ChatBody : Type :=
| Welcome (suggestions : list string)
| Conversation (msgs : list Chat.Message) (typing : bool).

Record ChatModal : Type := mkModal {
  analyzing : nat;
  plural : bool;
  body : ChatBody;
  draft : string;
  sendDisabled : bool
}.

(** Everything on the page that depends on props or state. *)
Record Page : Type := mkPage {
  uploadBox : UploadBox;
  documentCount : nat;
  documents : list FileCard;
  chatModal : option ChatModal
}.

(** The JSX the component returns; [None] when rendering throws. *)
Definition render (uploadedFiles : list PdfUploader.UploadedFile)
           (u : PdfUploader.State) (c : Chat.State) : option Page :=
  let files := currentFiles uploadedFiles in
  match cards files with
  | None => None
  | Some cs =>
      Some (mkPage
              (if PdfUploader.isLoading u then Processing else DropPrompt)
              (List.length files)
              cs
              (if Chat.showChat c then
                 Some (mkModal
                         (List.length files)
                         (negb (List.length files =? 1))
                         (match Chat.messages c with
                          | [] => Welcome Chat.suggestions
                          | ms => Conversation ms (Chat.isTyping c)
                          end)
                         (Chat.input c)
                         (negb (Js.truthy (Js.trim (Chat.input c)))))
               else None))
  end.

End PdfUploaderView.

(* ===================================================================== *)
(** ** App.jsx                                                            *)
(* ===================================================================== *)

Module App.

Inductive ToastType : Type := Success | Error.

Record Toast : Type := mkToast {
  show : bool;
  message : string;
  type : ToastType
}.

Definition noToast : Toast := mkToast false "" Success.

(** The state cells of [App], the number of toast timers running, and
    whether the suggestion timer of the effect on [uploadedFiles] is
    pending. *)
Record State : Type := mkState {
  uploadedFiles : list PdfUploader.UploadedFile;
  showQuizSuggestion : bool;
  detectedTopic : option string;
  showToast : Toast;
  toastTimers : nat;
  suggestionTimer : bool
}.

Definition mount : State := mkState [] false (Some "") noToast 0 false.

(** [displayToast]: the toast is shown and a timer of three seconds is
    started; no earlier timer is cleared. *)
Definition displayToast (msg : string) (ty : ToastType) (s : State) : State :=
  mkState (uploadedFiles s) (showQuizSuggestion s) (detectedTopic s)
          (mkToast true msg ty) (S (toastTimers s)) (suggestionTimer s).

(** A toast timer fires. *)
Definition toastTimerFires (s : State) : State :=
  match toastTimers s with
  | O => s
  | S k =>
      mkState (uploadedFiles s) (showQuizSuggestion s) (detectedTopic s)
              noToast k (suggestionTimer s)
  end.

(** The close button of the toast. *)
Definition closeToast (s : State) : State :=
  mkState (uploadedFiles s) (showQuizSuggestion s) (detectedTopic s)
          noToast (toastTimers s) (suggestionTimer s).

(** The effect on [uploadedFiles]: its cleanup clears the timer of the
    previous run, and a new one of five seconds is started when there is
    a file. *)
Definition suggestionEffect (s : State) : State :=
  mkState (uploadedFiles s) (showQuizSuggestion s) (detectedTopic s)
          (showToast s) (toastTimers s) (0 <? List.length (uploadedFiles s)).

(** [handleFileUpload], followed by the effect its state change runs. *)
Definition handleFileUpload (fileData : PdfUploader.UploadedFile) (s : State) : State :=
  suggestionEffect
    (displayToast "File uploaded and processed successfully!" Success
       (mkState (uploadedFiles s ++ [fileData]) (showQuizSuggestion s)
                (detectedTopic s) (showToast s) (toastTimers s) (suggestionTimer s))).

Definition handleTopicDetected (topic : option string) (s : State) : State :=
  mkState (uploadedFiles s) (showQuizSuggestion s) topic
          (showToast s) (toastTimers s) (suggestionTimer s).

(** The suggestion timer fires. *)
Definition suggestionTimerFires (s : State) : State :=
  if suggestionTimer s then
    mkState (uploadedFiles s) true (detectedTopic s)
            (showToast s) (toastTimers s) false
  else s.

Definition handleQuizReject (s : State) : State :=
  mkState (uploadedFiles s) false (detectedTopic s)
          (showToast s) (toastTimers s) (suggestionTimer s).

(** [handleQuizAccept]: the suggestion is hidden, then the call of
    [navigate], a name that [App] does not define, throws a
    [ReferenceError]; the update made before it is applied. *)
Definition handleQuizAccept (s : State) : State :=
  mkState (uploadedFiles s) false (detectedTopic s)
          (showToast s) (toastTimers s) (suggestionTimer s).

(** [handleQuestionPaperGenerate]. *)
Definition handleQuestionPaperGenerate (difficulty : string) (s : State) : State :=
  displayToast ("Question paper generated for " +++ difficulty +++ " difficulty!") Success s.

(** A call made by the upload intake reaches its handler. *)
Definition deliver (c : PdfUploader.Call) (s : State) : State :=
  match c with
  | PdfUploader.OnFileUpload d => handleFileUpload d s
  | PdfUploader.OnTopicDetected t => handleTopicDetected t s
  end.

Definition deliverAll (cs : list PdfUploader.Call) (s : State) : State :=
  fold_left (fun acc c => deliver c acc) cs s.

(** What happens at the intake: a change of the file input, with the
    files it holds, or the oldest upload timer firing. *)
Inductive IntakeEvent : Type :=
| Chosen (files : list PdfUploader.File)
| UploadTimer.

Definition intakeStep (e : IntakeEvent) (u : PdfUploader.State) : PdfUploader.State :=
  match e with
  | Chosen files => PdfUploader.handleFileChange files u
  | UploadTimer => PdfUploader.timerFires u
  end.

Definition intakeRun (es : list IntakeEvent) (u : PdfUploader.State) : PdfUploader.State :=
  fold_left (fun acc e => intakeStep e acc) es u.

(** The files the handler looked at, [e.target.files[0]] of each change. *)
Definition picked (es : list IntakeEvent) : list PdfUploader.File :=
  flat_map (fun e => match e with
                     | Chosen (f :: _) => [f]
                     | _ => []
                     end) es.

(** The user picks the files one after the other, each upload finishing
    before the next starts. *)
Definition uploadEach (files : list PdfUploader.File) (u : PdfUploader.State) : PdfUploader.State :=
  fold_left (fun acc f => PdfUploader.timerFires (PdfUploader.handleFileChange [f] acc))
            files u.

(** The intake accepts the file. *)
Definition accepted (f : PdfUploader.File) : bool :=
  Js.arrIncludes PdfUploader.validTypes (PdfUploader.f_type f).

(** The calls a list of accepted files leads to. *)
Definition callsFor (fs : list PdfUploader.File) : list PdfUploader.Call :=
  flat_map (fun f => [PdfUploader.OnFileUpload (PdfUploader.fileData f);
                      PdfUploader.OnTopicDetected
                        (Some (PdfUploader.topicOfName (PdfUploader.f_name f)))]) fs.

(** Truthiness of [detectedTopic]. *)
Definition topicSet (t : option string) : bool :=
  match t with
  | Some s => Js.truthy s
  | None => false
  end.

(** The [topic] prop that [QuizPage] gives to [Quiz],
    [detectedTopic || uploadedFiles[0].topics[0]]; the quiz is only
    rendered when there is a file.  The outer [None] is no quiz: there
    is no file, or the first file has no [topics] and reading its first
    element throws; the inner one is a prop that is [undefined]. *)
Definition quizTopic (s : State) : option (option string) :=
  match uploadedFiles s with
  | [] => None
  | f :: _ =>
      if topicSet (detectedTopic s) then Some (detectedTopic s)
      else match PdfUploader.topics f with
           | Some ts => Some (nth_error ts 0)
           | None => None
           end
  end.

(** What happens in the shell. *)
Inductive Event : Type :=
| Uploaded (fileData : PdfUploader.UploadedFile)
| TopicDetected (topic : option string)
| ToastTimer
| ToastClosed
| SuggestionTimer
| Rejected
| PaperGenerated (difficulty : string)
| Accepted.

Definition step (e : Event) (s : State) : State :=
  match e with
  | Uploaded d => handleFileUpload d s
  | TopicDetected t => handleTopicDetected t s
  | ToastTimer => toastTimerFires s
  | ToastClosed => closeToast s
  | SuggestionTimer => suggestionTimerFires s
  | Rejected => handleQuizReject s
  | PaperGenerated d => handleQuestionPaperGenerate d s
  | Accepted => handleQuizAccept s
  end.

Definition run (es : list Event) (s : State) : State :=
  fold_left (fun acc e => step e acc) es s.

End App.

(* ===================================================================== *)
(** ** Resources.jsx: the figures shown                                   *)
(* ===================================================================== *)

Module ResourcesStats.
Import Resources.

(** The hearts of the resources [ids] are clicked one after the other. *)
Definition afterToggles (ids : list string) (s : State) : State :=
  fold_left (fun acc i => toggleFavorite i acc) ids s.

(** Strings of ASCII characters: on these the case mappings and [trim]
    of the language are the ones of module [Js]. *)
Fixpoint isAscii (s : string) : bool :=
  match s with
  | EmptyString => true
  | String c r => (Js.code c <? 128) && isAscii r
  end.

(** The six ids given out at position [k] of the topic loop. *)
Definition idsAt (k : nat) : list string :=
  [ "video-" +++ Js.ofNat k +++ "-1"; "video-" +++ Js.ofNat k +++ "-2";
    "article-" +++ Js.ofNat k +++ "-1"; "article-" +++ Js.ofNat k +++ "-2";
    "interactive-" +++ Js.ofNat k +++ "-1"; "book-" +++ Js.ofNat k +++ "-1" ].

(** The count beside a category button. *)
Definition categoryCount (cat : string) (rs : list Resource) : nat :=
  if String.eqb cat "all" then List.length rs
  else List.length (filter (fun r => String.eqb (category r) cat) rs).

(** [new Set(resources.map(r => r.topic)).size]. *)
Definition topicsCovered (rs : list Resource) : nat :=
  List.length (Js.unique (map topic rs)).

End ResourcesStats.

(* ===================================================================== *)
(** * Properties                                                          *)
(* ===================================================================== *)

(** ** The helpers on concrete inputs *)

Example toLowerCase_ex : Js.toLowerCase "Machine Learning" = "machine learning".
Proof. reflexivity. Qed.
Example split_ex1 : Js.split "." "notes.pdf" = ["notes"; "pdf"].
Proof. reflexivity. Qed.
Example split_ex2 : Js.split "." "a.b.pdf" = ["a"; "b"; "pdf"].
Proof. reflexivity. Qed.
Example split_ex3 : Js.split "." "" = [""].
Proof. reflexivity. Qed.
Example trim_ex : Js.trim "  a b  " = "a b".
Proof. reflexivity. Qed.
Example dashed_ex : Js.dashed "data   science x" = "data-science-x".
Proof. reflexivity. Qed.
Example ofNat_ex : Js.ofNat 0 = "0" /\ Js.ofNat 12 = "12".
Proof. split; reflexivity. Qed.
Example unique_ex : Js.unique ["a"; "b"; "a"; "c"; "b"] = ["a"; "b"; "c"].
Proof. reflexivity. Qed.
Example includes_ex : Js.includes "hello" "ell" = true /\ Js.includes "hello" "" = true
                      /\ Js.includes "hello" "lo " = false.
Proof. repeat split; reflexivity. Qed.

(* ===================================================================== *)
(** ** Quiz                                                               *)
(* ===================================================================== *)

Module QuizProps.
Import Quiz.

(** The handlers never replace the bank. *)
Lemma handleAnswer_questions v s :
  questions (stateOf (handleAnswer v s)) = questions s.
Proof.
  unfold handleAnswer.
  destruct (isAnswered s); [reflexivity|].
  destruct (index (questions s) (currentQuestion s)); reflexivity.
Qed.

Lemma nextQuestion_questions s :
  questions (fst (nextQuestion s)) = questions s.
Proof. unfold nextQuestion. destruct (hasNext s); reflexivity. Qed.

Lemma step_questions a s : questions (st (step a s)) = questions (st s).
Proof.
  destruct a as [v|]; simpl.
  - apply handleAnswer_questions.
  - pose proof (nextQuestion_questions (st s)) as H.
    destruct (nextQuestion (st s)) as [st' c]. exact H.
Qed.

Lemma run_questions acts : forall s, questions (st (run acts s)) = questions (st s).
Proof.
  induction acts as [|a acts IH]; intros s; simpl; [reflexivity|].
  unfold run in IH. rewrite IH. apply step_questions.
Qed.

(** One step of [skipn]: the element at the cut, then the rest. *)
Lemma skipn_nth_error {A} (l : list A) : forall n x,
  nth_error l n = Some x -> skipn n l = x :: skipn (S n) l.
Proof.
  induction l as [|y l IH]; intros [|n] x H; simpl in *; try discriminate.
  - injection H as ->. reflexivity.
  - apply IH. exact H.
Qed.

Lemma skipn_nth_error_None {A} (l : list A) : forall n,
  nth_error l n = None -> skipn n l = [].
Proof.
  intros n H. apply skipn_all2. apply nth_error_None. exact H.
Qed.

Lemma sumPoints_skipn_S qs : forall n,
  sumPoints (skipn (S n) qs) <= sumPoints (skipn n qs).
Proof.
  induction qs as [|q qs IH]; intros n.
  - rewrite !skipn_nil. apply Nat.le_refl.
  - destruct n as [|n].
    + simpl skipn. unfold sumPoints. simpl. lia.
    + change (skipn (S (S n)) (q :: qs)) with (skipn (S n) qs).
      change (skipn (S n) (q :: qs)) with (skipn n qs). apply IH.
Qed.

(** Score never drops in a step. *)
Lemma handleAnswer_score_mono v s : score s <= score (stateOf (handleAnswer v s)).
Proof.
  unfold handleAnswer.
  destruct (isAnswered s); [apply Nat.le_refl|].
  destruct (index (questions s) (currentQuestion s)) as [q|]; simpl;
    [destruct (isCorrect q v); lia | apply Nat.le_refl].
Qed.

Lemma nextQuestion_score s : score (fst (nextQuestion s)) = score s.
Proof. unfold nextQuestion. destruct (hasNext s); reflexivity. Qed.

Lemma step_score_mono a s : score (st s) <= score (st (step a s)).
Proof.
  destruct a as [v|]; simpl.
  - apply handleAnswer_score_mono.
  - pose proof (nextQuestion_score (st s)) as H.
    destruct (nextQuestion (st s)) as [st' c]. simpl in *. lia.
Qed.

(** The bound is kept by both handlers. *)
Lemma handleAnswer_within v s : within s -> within (stateOf (handleAnswer v s)).
Proof.
  unfold within, totalPoints. intros H.
  rewrite handleAnswer_questions.
  unfold handleAnswer.
  destruct (isAnswered s) eqn:Ha; [exact H|].
  unfold pending in *. rewrite Ha in H. rewrite Nat.add_0_r in H.
  unfold index.
  destruct (nth_error (items (questions s)) (currentQuestion s)) as [q|] eqn:Hi;
    cbn [stateOf score questions currentQuestion isAnswered]; rewrite Nat.add_1_r.
  - rewrite (skipn_nth_error _ _ _ Hi) in H.
    change (sumPoints (q :: skipn (S (currentQuestion s)) (items (questions s))))
      with (pointValue q + sumPoints (skipn (S (currentQuestion s)) (items (questions s)))) in H.
    destruct (isCorrect q v); lia.
  - rewrite (skipn_nth_error_None _ _ Hi) in H.
    rewrite skipn_all2; [exact H|].
    apply nth_error_None in Hi. lia.
Qed.

Lemma nextQuestion_within s : within s -> within (fst (nextQuestion s)).
Proof.
  unfold within, totalPoints. intros H.
  rewrite nextQuestion_questions.
  unfold nextQuestion.
  destruct (hasNext s); [|exact H].
  unfold pending in *.
  cbn [fst score questions currentQuestion isAnswered].
  rewrite Nat.add_0_r, Nat.add_1_r.
  destruct (isAnswered s).
  - rewrite Nat.add_1_r in H. exact H.
  - rewrite Nat.add_0_r in H.
    pose proof (sumPoints_skipn_S (items (questions s)) (currentQuestion s)). lia.
Qed.

Lemma step_within a s : within (st s) -> within (st (step a s)).
Proof.
  destruct a as [v|]; simpl.
  - apply handleAnswer_within.
  - intros H. pose proof (nextQuestion_within (st s) H) as H'.
    destruct (nextQuestion (st s)) as [st' c]. exact H'.
Qed.

Lemma run_within acts : forall s, within (st s) -> within (st (run acts s)).
Proof.
  induction acts as [|a acts IH]; intros s H; simpl; [exact H|].
  apply IH. apply step_within. exact H.
Qed.

Lemma sessionOf_within v tl : within (st (sessionOf v tl)).
Proof. unfold within, pending. simpl. apply Nat.le_refl. Qed.

Lemma run_app acts a s : run (acts ++ [a]) s = step a (run acts s).
Proof. unfold run. rewrite fold_left_app. reflexivity. Qed.

(** C4: in every session, whatever the sequence of [submitAnswer] and
    [advance] calls, the score reached never exceeds the sum of the point
    values of the questions ([points || 1] each), and no further call,
    [submitAnswer] in particular, lowers it. *)
Theorem C4_score_monotone_and_bounded :
  forall (v : Value) (tl : option nat) (acts : list Action),
    score (st (run acts (sessionOf v tl))) <= totalPoints v
    /\ (forall a, score (st (run acts (sessionOf v tl)))
                  <= score (st (run (acts ++ [a]) (sessionOf v tl))))
    /\ (forall value, score (st (run acts (sessionOf v tl)))
                  <= score (stateOf (handleAnswer value (st (run acts (sessionOf v tl)))))).
Proof.
  intros v tl acts. repeat split.
  - pose proof (run_within acts _ (sessionOf_within v tl)) as H.
    unfold within in H. rewrite run_questions in H. simpl in H. lia.
  - intros a. rewrite run_app. apply step_score_mono.
  - intros value. apply handleAnswer_score_mono.
Qed.

(** The sessions the component starts are of this form. *)
Lemma loaded_sessionOf topic difficulty tl s :
  loaded topic difficulty tl = Some s ->
  s = sessionOf (questions (st s)) tl.
Proof.
  unfold loaded, generateQuestions.
  destruct (setQuestions _ _); intros H; [|discriminate].
  injection H as <-. reflexivity.
Qed.

Example totalPoints_banks topic :
  totalPoints (Arr (easyBank topic)) = 2
  /\ totalPoints (Arr (mediumBank topic)) = 11
  /\ totalPoints (Arr (hardBank topic)) = 21.
Proof. repeat split. Qed.

(** C5: on a state whose current question is answered, [submitAnswer]
    returns at once: every state cell keeps its value and the log of
    completion calls is untouched. *)
Theorem C5_submitAnswer_idempotent :
  forall (s : Session) (value : string),
    isAnswered (st s) = true ->
    handleAnswer value (st s) = Returned (st s)
    /\ step (SubmitAnswer value) s = s.
Proof.
  intros [s c] value H. simpl in *.
  unfold handleAnswer. rewrite H. split; reflexivity.
Qed.

Lemma C5_submitAnswer_idempotent_witness :
  isAnswered (st (step (SubmitAnswer "first") (sessionOf (Arr (mediumBank "notes")) None))) = true
  /\ handleAnswer "second"
       (st (step (SubmitAnswer "first") (sessionOf (Arr (mediumBank "notes")) None)))
     = Returned (st (step (SubmitAnswer "first") (sessionOf (Arr (mediumBank "notes")) None)))
  /\ step (SubmitAnswer "second")
       (step (SubmitAnswer "first") (sessionOf (Arr (mediumBank "notes")) None))
     = step (SubmitAnswer "first") (sessionOf (Arr (mediumBank "notes")) None).
Proof.
  split; [reflexivity|].
  apply (C5_submitAnswer_idempotent
           (step (SubmitAnswer "first") (sessionOf (Arr (mediumBank "notes")) None))
           "second").
  reflexivity.
Defined.

(** After any first call the question is answered, so a second call in a
    row changes nothing. *)
Lemma handleAnswer_twice v1 v2 s :
  handleAnswer v2 (stateOf (handleAnswer v1 s)) = Returned (stateOf (handleAnswer v1 s)).
Proof.
  assert (H : isAnswered (stateOf (handleAnswer v1 s)) = true).
  { unfold handleAnswer. destruct (isAnswered s) eqn:Ha; [exact Ha|].
    destruct (index (questions s) (currentQuestion s)); reflexivity. }
  unfold handleAnswer at 1. rewrite H. reflexivity.
Qed.

(** *** Completion *)

(** On the last question [advance] shows the result and reports the score,
    the number of questions, the transcript and the rounded percentage. *)
Lemma nextQuestion_last s :
  hasNext s = false ->
  showResult (fst (nextQuestion s)) = true
  /\ snd (nextQuestion s)
     = Some (mkCompletion (score s) (lengthOf (questions s)) (Some (userAnswers s))
               (Some (percentage (score s) (lengthOf (questions s)))) false).
Proof. intros H. unfold nextQuestion. rewrite H. split; reflexivity. Qed.

(** [roundPercent a b] is the integer nearest to [100 * a / b], the half
    rounded upwards. *)
Lemma roundPercent_nearest a b :
  b <> 0 ->
  exists z, Js.roundPercent a b = Js.Num z
            /\ (2 * Z.of_nat b * z <= 200 * Z.of_nat a + Z.of_nat b
                < 2 * Z.of_nat b * (z + 1))%Z.
Proof.
  intros Hb. destruct b as [|b]; [contradiction|].
  eexists. split; [reflexivity|].
  set (d := (2 * Z.of_nat (S b))%Z).
  set (n := (200 * Z.of_nat a + Z.of_nat (S b))%Z).
  assert (Hd : (0 < d)%Z) by (unfold d; lia).
  pose proof (Z.mul_div_le n d Hd).
  pose proof (Z.mul_succ_div_gt n d Hd).
  lia.
Qed.

(** With two questions the percentage is fifty times the score. *)
Lemma percentage_of_two sc : percentage sc (Some 2) = Js.Num (50 * Z.of_nat sc).
Proof.
  unfold percentage, Js.roundPercent. f_equal.
  replace (200 * Z.of_nat sc + Z.of_nat 2)%Z with (2 + (50 * Z.of_nat sc) * 4)%Z by lia.
  change (2 * Z.of_nat 2)%Z with 4%Z.
  rewrite Z.div_add by lia. reflexivity.
Qed.

(** The easy bank, whose questions count one point each: two correct
    answers end in score 2 of 2 and 100 percent. *)
Lemma easy_quiz_all_correct topic :
  loaded topic "easy" None = Some (sessionOf (Arr (easyBank topic)) None)
  /\ completed (run [SubmitAnswer "Option A - Basic concept"; Advance;
                     SubmitAnswer "Related concept A"; Advance]
                    (sessionOf (Arr (easyBank topic)) None))
     = [ mkCompletion 2 (Some 2)
           (Some [ mkAnswer (Some ("What is the basic definition of " +++ topic +++ "?"))
                     "Option A - Basic concept" true;
                   mkAnswer (Some ("Which of the following is most related to " +++ topic +++ "?"))
                     "Related concept A" true ])
           (Some (Js.Num 100)) false ].
Proof. split; reflexivity. Qed.

(** C1: the quiz as the application mounts it (difficulty left at its
    default, ["medium"]) has two questions; answering both correctly and
    advancing past the last one calls the completion callback once, with
    total 2, but with score 11 and percentage 550: the short-answer
    question adds its 10 points while the total counts questions. *)
Theorem C1_medium_quiz_all_correct :
  exists s0,
    loaded "notes" "medium" None = Some s0
    /\ lengthOf (questions (st s0)) = Some 2
    /\ showResult (st (run [SubmitAnswer "Core concepts, applied with care"; Advance;
                            SubmitAnswer "Balanced pros and cons"; Advance] s0)) = true
    /\ map correct
           (userAnswers (st (run [SubmitAnswer "Core concepts, applied with care"; Advance;
                                  SubmitAnswer "Balanced pros and cons"; Advance] s0)))
       = [true; true]
    /\ exists c,
         completed (run [SubmitAnswer "Core concepts, applied with care"; Advance;
                         SubmitAnswer "Balanced pros and cons"; Advance] s0) = [c]
         /\ c_score c = 11
         /\ c_total c = Some 2
         /\ c_percentage c = Some (Js.Num 550).
Proof.
  eexists. split; [reflexivity|].
  split; [reflexivity|]. split; [reflexivity|]. split; [reflexivity|].
  eexists. split; [reflexivity|]. repeat split.
Qed.

(** *** Choice of the bank *)

Lemma banks_have_two_questions topic :
  List.length (easyBank topic) = 2
  /\ List.length (mediumBank topic) = 2
  /\ List.length (hardBank topic) = 2.
Proof. repeat split. Qed.

Lemma loaded_known topic tl :
  loaded topic "easy" tl = Some (sessionOf (Arr (easyBank topic)) tl)
  /\ loaded topic "medium" tl = Some (sessionOf (Arr (mediumBank topic)) tl)
  /\ loaded topic "hard" tl = Some (sessionOf (Arr (hardBank topic)) tl).
Proof. repeat split. Qed.

(** A difficulty that names neither a bank nor a property of
    [Object.prototype] gets the medium bank. *)
Lemma loaded_fallback topic difficulty tl :
  assoc difficulty (questionBank topic) = None ->
  assoc difficulty objectPrototype = None ->
  selectedQuestions topic difficulty = Bank (mediumBank topic)
  /\ loaded topic difficulty tl = Some (sessionOf (Arr (mediumBank topic)) tl).
Proof.
  intros H1 H2.
  assert (E : selectedQuestions topic difficulty = Bank (mediumBank topic)).
  { unfold selectedQuestions, getProp. rewrite H1, H2. reflexivity. }
  split; [exact E|].
  unfold loaded, generateQuestions. rewrite E. reflexivity.
Qed.

Example loaded_typo topic :
  loaded topic "Hard" None = Some (sessionOf (Arr (mediumBank topic)) None)
  /\ loaded topic "" None = Some (sessionOf (Arr (mediumBank topic)) None).
Proof. split; reflexivity. Qed.

(** What the other inherited names lead to. *)
Example loaded_inherited topic :
  (exists s, loaded topic "toString" None = Some s
             /\ questions (st s) = Text "[object Undefined]")
  /\ (exists s, loaded topic "__proto__" None = Some s
                /\ questions (st s) = ProtoObject
                /\ questionText (st s) = None)
  /\ loaded topic "hasOwnProperty" None = None
  /\ loaded topic "valueOf" None = None.
Proof.
  split; [eexists; split; reflexivity|].
  split; [eexists; repeat split; reflexivity|].
  split; reflexivity.
Qed.

(** C3: the difficulty string ["constructor"] is not in {easy, medium,
    hard}, yet the property read finds it on the prototype of
    [questionBank]; the value, the function [Object], is truthy, so the
    fallback to the medium bank is not taken.  Passed to [setQuestions]
    it acts as an updater and gives the previous value back: loading
    ends with the empty array of the initial state.  The question screen
    then reads [text] of [undefined], and a percentage computed on this
    state divides zero by zero. *)
Theorem C3_prototype_key_defeats_fallback :
  forall topic : string,
    selectedQuestions topic "constructor" = Method "Object"
    /\ selectedQuestions topic "constructor" <> Bank (mediumBank topic)
    /\ exists s,
         loaded topic "constructor" None = Some s
         /\ isLoading (st s) = false
         /\ questions (st s) = Arr []
         /\ questions (st s) <> Arr (mediumBank topic)
         /\ questionText (st s) = None
         /\ option_map c_percentage (snd (nextQuestion (st s))) = Some (Some Js.NaN).
Proof.
  intros topic. split; [reflexivity|]. split; [discriminate|].
  eexists. split; [reflexivity|].
  repeat split; discriminate.
Qed.

End QuizProps.

(* ===================================================================== *)
(** ** Question paper                                                     *)
(* ===================================================================== *)

Module QuestionPaperProps.
Import QuestionPaper.

Lemma arrayFrom_length {A} (n : Z) (f : nat -> A) :
  List.length (Js.arrayFrom n f) = Z.to_nat n.
Proof. unfold Js.arrayFrom. rewrite length_map, length_seq. reflexivity. Qed.

Lemma arrayFrom_negative {A} (n : Z) (f : nat -> A) :
  (n <= 0)%Z -> Js.arrayFrom n f = [].
Proof.
  intros H. unfold Js.arrayFrom.
  replace (Z.to_nat n) with 0 by lia. reflexivity.
Qed.

Lemma arrayFrom_Forall {A} (P : A -> Prop) (n : Z) (f : nat -> A) :
  (forall i, P (f i)) -> Forall P (Js.arrayFrom n f).
Proof.
  intros H. unfold Js.arrayFrom. apply Forall_forall.
  intros x Hx. apply in_map_iff in Hx. destruct Hx as [i [<- _]]. apply H.
Qed.

(** Questions all worth [w] add up to their number times [w]. *)
Lemma sumMarks_uniform (f : nat -> PaperQuestion) (w : Z) :
  (forall i, marks (f i) = w) ->
  forall k a, sumMarks (map f (seq a k)) = (Z.of_nat k * w)%Z.
Proof.
  intros Hw. induction k as [|k IH]; intros a.
  - reflexivity.
  - cbn [seq map sumMarks fold_right].
    fold (sumMarks (map f (seq (S a) k))).
    rewrite IH, Hw. lia.
Qed.

Lemma sumMarks_arrayFrom (f : nat -> PaperQuestion) (w n : Z) :
  (forall i, marks (f i) = w) ->
  (0 <= n)%Z ->
  sumMarks (Js.arrayFrom n f) = (n * w)%Z.
Proof.
  intros Hw Hn. unfold Js.arrayFrom.
  rewrite (sumMarks_uniform f w Hw), Z2Nat.id by exact Hn. reflexivity.
Qed.

Lemma section_ok label ttl instr (f : nat -> PaperQuestion) (n w : Z) (k : bool) :
  (forall i, marks (f i) = w /\ isMcq (f i) = k) ->
  (0 <= n)%Z ->
  sectionAsSpecified (mkSection label ttl instr (Js.arrayFrom n f) (n * w)%Z) label n w k.
Proof.
  intros Hf Hn. unfold sectionAsSpecified. cbn [part questions totalMarks].
  repeat split.
  - rewrite arrayFrom_length. lia.
  - apply arrayFrom_Forall. exact Hf.
  - symmetry. apply sumMarks_arrayFrom; [intros i; apply Hf | exact Hn].
Qed.

Lemma generate_asSpecified d today ts m s l lim :
  (0 <= m)%Z -> (0 <= s)%Z -> (0 <= l)%Z ->
  paperAsSpecified (generate d today ts m s l lim) m s l.
Proof.
  intros Hm Hs Hl.
  split; [reflexivity|].
  eexists _, _, _. split; [reflexivity|].
  refine (conj _ (conj _ _)).
  - pose proof (section_ok "A" "Multiple Choice Questions"
                  "Choose the correct answer from the given options."
                  (mcqQuestion d ts) m 1 true
                  (fun i => conj eq_refl eq_refl) Hm) as H.
    rewrite Z.mul_1_r in H. exact H.
  - apply section_ok; [intros i; split; reflexivity | exact Hs].
  - apply section_ok; [intros i; split; reflexivity | exact Hl].
Qed.

Lemma arrayFromChecked_Some {A} (n : Z) (f : nat -> A) l :
  Js.arrayFromChecked n f = Some l -> (n <= Js.maxArrayLength)%Z /\ l = Js.arrayFrom n f.
Proof.
  unfold Js.arrayFromChecked.
  destruct (n <=? Js.maxArrayLength)%Z eqn:E; intros H; [|discriminate].
  injection H as <-. split; [apply Z.leb_le; exact E | reflexivity].
Qed.

Lemma arrayFromChecked_short {A} (n : Z) (f : nat -> A) :
  (n <= Js.maxArrayLength)%Z -> Js.arrayFromChecked n f = Some (Js.arrayFrom n f).
Proof.
  intros H. unfold Js.arrayFromChecked.
  apply Z.leb_le in H. rewrite H. reflexivity.
Qed.

Lemma arrayFromChecked_long {A} (n : Z) (f : nat -> A) :
  (Js.maxArrayLength < n)%Z -> Js.arrayFromChecked n f = None.
Proof.
  intros H. unfold Js.arrayFromChecked.
  destruct (n <=? Js.maxArrayLength)%Z eqn:E; [|reflexivity].
  apply Z.leb_le in E. lia.
Qed.

(** A paper is made exactly when no section is longer than the longest
    array, and it is then the object [samplePaper] describes. *)
Lemma generated_Some d today ts m s l lim p :
  generated d today ts m s l lim = Some p ->
  p = generate d today ts m s l lim
  /\ (m <= Js.maxArrayLength)%Z /\ (s <= Js.maxArrayLength)%Z /\ (l <= Js.maxArrayLength)%Z.
Proof.
  unfold generated, generatePaper_timerChecked, samplePaperChecked, generatePaper_click.
  cbn [questionCount selectedTopics timeLimit mcq short long].
  destruct (Js.arrayFromChecked m (mcqQuestion d ts)) as [a|] eqn:Ea; [|discriminate].
  destruct (Js.arrayFromChecked s (shortQuestion d ts)) as [b|] eqn:Eb; [|discriminate].
  destruct (Js.arrayFromChecked l (longQuestion d ts)) as [c|] eqn:Ec; [|discriminate].
  apply arrayFromChecked_Some in Ea, Eb, Ec.
  destruct Ea as [Hm ->], Eb as [Hs ->], Ec as [Hl ->].
  cbn [snd]. intros H. injection H as <-. repeat split; assumption.
Qed.

Lemma generated_in_range d today ts m s l lim :
  (m <= Js.maxArrayLength)%Z -> (s <= Js.maxArrayLength)%Z -> (l <= Js.maxArrayLength)%Z ->
  generated d today ts m s l lim = Some (generate d today ts m s l lim).
Proof.
  intros Hm Hs Hl.
  unfold generated, generatePaper_timerChecked, samplePaperChecked, generatePaper_click.
  cbn [questionCount selectedTopics timeLimit mcq short long].
  rewrite !arrayFromChecked_short by assumption. reflexivity.
Qed.

(** C2: for every question-paper configuration, the counts being numbers
    of questions (0 or more): whenever a paper is generated, it has
    totalMarks = mcqCount*1 + shortCount*3 + longCount*10, and its
    sections are, in this order, Part A with mcqCount multiple-choice
    questions of 1 mark, Part B with shortCount questions of 3 marks and
    Part C with longCount questions of 10 marks, each section total being
    the sum of the marks of its questions.  A paper is generated for
    every configuration inside the ranges the form declares (up to 50, 20
    and 10 questions), and none is once a count passes the longest array
    ([Array.from] throws). *)
Theorem C2_paper_marks_and_sections :
  forall (d today : string) (ts : list string) (m s l lim : Z),
    (0 <= m)%Z -> (0 <= s)%Z -> (0 <= l)%Z ->
    (forall p, generated d today ts m s l lim = Some p -> paperAsSpecified p m s l)
    /\ ((m <= 50)%Z -> (s <= 20)%Z -> (l <= 10)%Z ->
        exists p, generated d today ts m s l lim = Some p /\ paperAsSpecified p m s l)
    /\ ((Js.maxArrayLength < m)%Z \/ (Js.maxArrayLength < s)%Z \/ (Js.maxArrayLength < l)%Z ->
        generated d today ts m s l lim = None).
Proof.
  intros d today ts m s l lim Hm Hs Hl.
  split; [|split].
  - intros p Hp. apply generated_Some in Hp. destruct Hp as [-> _].
    apply generate_asSpecified; assumption.
  - intros Hm' Hs' Hl'.
    exists (generate d today ts m s l lim). split.
    + apply generated_in_range; unfold Js.maxArrayLength; lia.
    + apply generate_asSpecified; assumption.
  - intros H.
    destruct (generated d today ts m s l lim) as [p|] eqn:E; [|reflexivity].
    apply generated_Some in E. lia.
Qed.

Lemma C2_paper_marks_and_sections_witness :
  (0 <= 5)%Z /\ (0 <= 2)%Z /\ (0 <= 1)%Z
  /\ exists p, generated "hard" "11/3/2026" [] 5 2 1 120 = Some p
               /\ paperAsSpecified p 5 2 1.
Proof.
  split; [lia|]. split; [lia|]. split; [lia|].
  destruct (C2_paper_marks_and_sections "hard" "11/3/2026" [] 5 2 1 120) as [_ [H _]];
    try lia.
  apply H; lia.
Defined.

(** The scenario of the specification: 5, 2 and 1 questions at difficulty
    hard give 21 marks in sections A, B, C of 5, 2 and 1 questions. *)
Example hard_5_2_1 :
  generated "hard" "11/3/2026" [] 5 2 1 120 = Some (generate "hard" "11/3/2026" [] 5 2 1 120)
  /\ generated "hard" "11/3/2026" [] 4294967296 2 1 120 = None
  /\ let p := generate "hard" "11/3/2026" [] 5 2 1 120 in
  p_totalMarks p = 21%Z
  /\ p_title p = "Hard Level Question Paper"
  /\ map part (p_sections p) = ["A"; "B"; "C"]
  /\ map (fun x => List.length (questions x)) (p_sections p) = [5; 2; 1]
  /\ map totalMarks (p_sections p) = [5; 6; 10]%Z.
Proof. repeat split. Qed.

(** Outside the numbers of questions: a count below zero, which the
    number inputs store when it is typed, is no number of questions that
    a section could have; [Array.from] then makes no question while the
    section total is the negative product. *)
Lemma negative_count_paper :
  ~ paperAsSpecified (generate "hard" "11/3/2026" [] (-1) 2 1 120) (-1) 2 1.
Proof.
  intros [_ [a [b [c [Hsec [Ha _]]]]]].
  cbn in Hsec. injection Hsec as <- _ _.
  destruct Ha as [_ [Hlen _]]. cbn in Hlen. discriminate.
Qed.

Example negative_count_section_total :
  let p := generate "hard" "11/3/2026" [] (-1) 2 1 120 in
  map totalMarks (p_sections p) = [-1; 6; 10]%Z
  /\ map (fun x => sumMarks (questions x)) (p_sections p) = [0; 6; 10]%Z.
Proof. split; reflexivity. Qed.

End QuestionPaperProps.

(* ===================================================================== *)
(** ** Upload intake                                                      *)
(* ===================================================================== *)

Module PdfUploaderProps.
Import PdfUploader.

Lemma split_not_nil sep s : Js.split sep s <> [].
Proof.
  destruct s as [|c r]; simpl; [discriminate|].
  destruct (Ascii.eqb c sep); [discriminate|].
  destruct (Js.split sep r); discriminate.
Qed.

(** The topic read off a name, character by character: it stops at the
    first dot. *)
Lemma topicOfName_cons c r :
  topicOfName (String c r)
  = if Ascii.eqb c "." then "" else String c (topicOfName r).
Proof.
  unfold topicOfName. simpl.
  destruct (Ascii.eqb c "."); [reflexivity|].
  pose proof (split_not_nil "." r) as H.
  destruct (Js.split "." r); [contradiction|reflexivity].
Qed.

Lemma topicOfName_no_dot n : hasDot (topicOfName n) = false.
Proof.
  induction n as [|c r IH]; [reflexivity|].
  rewrite topicOfName_cons.
  destruct (Ascii.eqb c ".") eqn:E; [reflexivity|].
  simpl. rewrite E. exact IH.
Qed.

Lemma topicOfName_prefix n :
  n = topicOfName n \/ exists rest, n = topicOfName n +++ String "." rest.
Proof.
  induction n as [|c r IH]; [left; reflexivity|].
  rewrite topicOfName_cons.
  destruct (Ascii.eqb c ".") eqn:E.
  - right. exists r. apply Ascii.eqb_eq in E. subst c. reflexivity.
  - destruct IH as [IH | [rest IH]].
    + left. f_equal. exact IH.
    + right. exists rest. simpl. f_equal. exact IH.
Qed.

Lemma countDots_zero_hasDot s : countDots s = 0 -> hasDot s = false.
Proof.
  induction s as [|c r IH]; [reflexivity|].
  simpl. destruct (Ascii.eqb c "."); simpl; [discriminate|exact IH].
Qed.

(** On a name with at most one dot the topic is the name without its
    extension. *)
Lemma topicOfName_stripExtension n :
  countDots n <= 1 -> topicOfName n = stripExtension n.
Proof.
  induction n as [|c r IH]; intros H; [reflexivity|].
  rewrite topicOfName_cons. simpl in *.
  destruct (Ascii.eqb c ".") eqn:E; simpl.
  - rewrite countDots_zero_hasDot by lia. reflexivity.
  - f_equal. apply IH. lia.
Qed.

(** C6, amended: for every accepted file the handler starts one timer;
    when it fires, [onFileUpload] receives a record whose topics are the
    one-element list holding the name up to its first dot (the whole name
    when it has none), and [onTopicDetected] receives that topic.  The
    topic is the name without its extension whenever the name has at most
    one dot. *)
Theorem C6_topic_is_name_before_first_dot :
  forall (f : File) (more : list File) (s : State),
    Js.arrIncludes validTypes (f_type f) = true ->
    timers (handleFileChange (f :: more) s) = timers s ++ [f]
    /\ calls (handleFileChange (f :: more) s) = calls s
    /\ (forall s' rest,
          timers s' = f :: rest ->
          calls (timerFires s')
          = calls s' ++ [OnFileUpload (fileData f);
                         OnTopicDetected (Some (topicOfName (f_name f)))])
    /\ topics (fileData f) = Some [topicOfName (f_name f)]
    /\ hasDot (topicOfName (f_name f)) = false
    /\ (f_name f = topicOfName (f_name f)
        \/ exists rest, f_name f = topicOfName (f_name f) +++ String "." rest)
    /\ (countDots (f_name f) <= 1 ->
        topicOfName (f_name f) = stripExtension (f_name f)).
Proof.
  intros f more s Hv. repeat apply conj.
  - unfold handleFileChange. rewrite Hv. reflexivity.
  - unfold handleFileChange. rewrite Hv. reflexivity.
  - intros s' rest Ht. unfold timerFires. rewrite Ht. reflexivity.
  - reflexivity.
  - apply topicOfName_no_dot.
  - apply topicOfName_prefix.
  - apply topicOfName_stripExtension.
Qed.

Lemma C6_topic_is_name_before_first_dot_witness :
  Js.arrIncludes validTypes "application/pdf" = true
  /\ calls (timerFires (handleFileChange [mkFile "notes.pdf" "application/pdf"] mount))
     = [ OnFileUpload (mkUploaded "notes.pdf" "application/pdf"
                         (ObjectURL (mkFile "notes.pdf" "application/pdf"))
                         (Some ["notes"]));
         OnTopicDetected (Some "notes") ].
Proof.
  split; [reflexivity|].
  destruct (C6_topic_is_name_before_first_dot
              (mkFile "notes.pdf" "application/pdf") [] mount eq_refl)
    as [_ [_ [H _]]].
  exact (H (handleFileChange [mkFile "notes.pdf" "application/pdf"] mount) [] eq_refl).
Defined.

(** C6 as stated fails on a name with two dots: the topic stops at the
    first one, the extension starts at the last one. *)
Lemma C6_counterexample_two_dots :
  Js.arrIncludes validTypes "application/pdf" = true
  /\ topics (fileData (mkFile "lecture.notes.pdf" "application/pdf")) = Some ["lecture"]
  /\ stripExtension "lecture.notes.pdf" = "lecture.notes"
  /\ topics (fileData (mkFile "lecture.notes.pdf" "application/pdf"))
     <> Some [stripExtension "lecture.notes.pdf"].
Proof. repeat split; discriminate. Qed.

Lemma arrIncludes_validTypes_false t :
  t <> "application/pdf" ->
  t <> "application/vnd.openxmlformats-officedocument.wordprocessingml.document" ->
  t <> "text/plain" ->
  Js.arrIncludes validTypes t = false.
Proof.
  intros H1 H2 H3. unfold Js.arrIncludes, validTypes. cbn [existsb].
  apply String.eqb_neq in H1, H2, H3. rewrite H1, H2, H3. reflexivity.
Qed.

(** The page reads one cell of the upload state, the loading flag. *)
Lemma render_reads_isLoading files u u' c :
  isLoading u = isLoading u' ->
  PdfUploaderView.render files u c = PdfUploaderView.render files u' c.
Proof. intros H. unfold PdfUploaderView.render. rewrite H. reflexivity. Qed.

(** C9: a file whose declared type is none of the three accepted ones
    makes the handler store the validation message in the cell [error]
    and nothing else moves: no callback is called, no timer is started
    (so none will be), the loading flag keeps its value and no file is
    selected.  The message, however, is not visible to the user: the
    JSX reads [error] nowhere, and the page after the rejection is the
    page before it. *)
Theorem C9_invalid_type_rejected :
  forall (f : File) (more : list File) (s : State)
         (uploadedFiles : list UploadedFile) (c : Chat.State),
    f_type f <> "application/pdf" ->
    f_type f <> "application/vnd.openxmlformats-officedocument.wordprocessingml.document" ->
    f_type f <> "text/plain" ->
    error (handleFileChange (f :: more) s) = Some invalidTypeMessage
    /\ PdfUploaderView.render uploadedFiles (handleFileChange (f :: more) s) c
       = PdfUploaderView.render uploadedFiles s c
    /\ calls (handleFileChange (f :: more) s) = calls s
    /\ timers (handleFileChange (f :: more) s) = timers s
    /\ isLoading (handleFileChange (f :: more) s) = isLoading s
    /\ selectedFile (handleFileChange (f :: more) s) = None
    /\ previewUrl (handleFileChange (f :: more) s) = previewUrl s.
Proof.
  intros f more s uploadedFiles c H1 H2 H3.
  assert (E : handleFileChange (f :: more) s
              = mkState None (isLoading s) (previewUrl s) (Some invalidTypeMessage)
                        (timers s) (calls s)).
  { unfold handleFileChange.
    rewrite (arrIncludes_validTypes_false _ H1 H2 H3). reflexivity. }
  rewrite E. cbn [error calls timers isLoading selectedFile previewUrl].
  split; [reflexivity|]. split; [|repeat split].
  apply render_reads_isLoading. reflexivity.
Qed.

Lemma C9_invalid_type_rejected_witness :
  error (handleFileChange [mkFile "photo.png" "image/png"] mount) = Some invalidTypeMessage
  /\ PdfUploaderView.render [] (handleFileChange [mkFile "photo.png" "image/png"] mount)
       Chat.mount
     = PdfUploaderView.render [] mount Chat.mount
  /\ calls (handleFileChange [mkFile "photo.png" "image/png"] mount) = []
  /\ timers (handleFileChange [mkFile "photo.png" "image/png"] mount) = []
  /\ isLoading (handleFileChange [mkFile "photo.png" "image/png"] mount) = false
  /\ selectedFile (handleFileChange [mkFile "photo.png" "image/png"] mount) = None
  /\ previewUrl (handleFileChange [mkFile "photo.png" "image/png"] mount) = None.
Proof.
  apply (C9_invalid_type_rejected (mkFile "photo.png" "image/png") [] mount [] Chat.mount);
    discriminate.
Defined.

(** What the page shows at mount, and still shows after a rejected file. *)
Example page_after_rejection :
  PdfUploaderView.render [] (handleFileChange [mkFile "photo.png" "image/png"] mount)
    Chat.mount
  = Some (PdfUploaderView.mkPage PdfUploaderView.DropPrompt 2
            [ PdfUploaderView.mkCard PdfUploaderView.PageIcon "Machine Learning Basics.pdf"
                "PDF" (Some "Machine Learning");
              PdfUploaderView.mkCard PdfUploaderView.MemoIcon "Data Science Guide.docx"
                "DOCX" (Some "Data Science") ]
            None).
Proof. reflexivity. Qed.

End PdfUploaderProps.

(* ===================================================================== *)
(** ** Resources                                                          *)
(* ===================================================================== *)

Module ResourcesProps.
Import Resources.

(** *** Arrays of strings *)

Lemma arrIncludes_In l x : Js.arrIncludes l x = true <-> In x l.
Proof.
  unfold Js.arrIncludes. rewrite existsb_exists. split.
  - intros [y [Hy E]]. apply String.eqb_eq in E. subst y. exact Hy.
  - intros H. exists x. split; [exact H | apply String.eqb_refl].
Qed.

Lemma arrIncludes_app l1 l2 x :
  Js.arrIncludes (l1 ++ l2) x = Js.arrIncludes l1 x || Js.arrIncludes l2 x.
Proof. unfold Js.arrIncludes. apply existsb_app. Qed.

Lemma arrIncludes_single y x : Js.arrIncludes [y] x = String.eqb x y.
Proof. unfold Js.arrIncludes. simpl. apply orb_false_r. Qed.

Lemma arrIncludes_remove l rid x :
  Js.arrIncludes (filter (fun i => negb (String.eqb i rid)) l) x
  = Js.arrIncludes l x && negb (String.eqb x rid).
Proof.
  unfold Js.arrIncludes.
  induction l as [|y l IH]; [reflexivity|].
  simpl. destruct (String.eqb y rid) eqn:E; simpl.
  - rewrite IH. apply String.eqb_eq in E. subst y.
    destruct (String.eqb x rid); simpl; [|reflexivity].
    rewrite andb_false_r. reflexivity.
  - rewrite IH.
    destruct (String.eqb x y) eqn:E2; simpl; [|reflexivity].
    apply String.eqb_eq in E2. subst y. rewrite E. reflexivity.
Qed.

Lemma filter_id {A} (p : A -> bool) l :
  (forall x, In x l -> p x = true) -> filter p l = l.
Proof.
  induction l as [|x l IH]; intros H; [reflexivity|].
  simpl. rewrite (H x (or_introl eq_refl)). f_equal.
  apply IH. intros y Hy. apply H. right. exact Hy.
Qed.

Lemma filter_filter {A} (p q : A -> bool) l :
  filter q (filter p l) = filter (fun x => p x && q x) l.
Proof.
  induction l as [|x l IH]; [reflexivity|].
  simpl. destruct (p x); simpl; [destruct (q x)|]; rewrite IH; reflexivity.
Qed.

(** *** De-duplication *)

Lemma unique_from acc : forall l,
  fold_left Js.setAdd l acc
  = acc ++ filter (fun y => negb (Js.arrIncludes acc y)) (Js.firstSeen l).
Proof.
  intros l. revert acc.
  induction l as [|x l IH]; intros acc; simpl.
  - symmetry. apply app_nil_r.
  - rewrite IH. unfold Js.setAdd.
    destruct (Js.arrIncludes acc x) eqn:E; simpl.
    + f_equal. rewrite filter_filter. apply filter_ext.
      intros y. destruct (String.eqb y x) eqn:E2; simpl; [|reflexivity].
      apply String.eqb_eq in E2. subst y. rewrite E. reflexivity.
    + rewrite <- app_assoc. simpl. f_equal. f_equal.
      rewrite filter_filter. apply filter_ext.
      intros y. rewrite arrIncludes_app, arrIncludes_single, negb_orb.
      apply andb_comm.
Qed.

Lemma unique_firstSeen l : Js.unique l = Js.firstSeen l.
Proof.
  unfold Js.unique. rewrite unique_from. simpl.
  apply filter_id. intros; reflexivity.
Qed.

Lemma firstSeen_In l x : In x (Js.firstSeen l) <-> In x l.
Proof.
  induction l as [|y l IH]; simpl; [tauto|].
  rewrite filter_In, IH. split.
  - intros [H | [H _]]; [left | right]; assumption.
  - intros [H | H]; [left; exact H|].
    destruct (String.eqb x y) eqn:E.
    + left. apply String.eqb_eq in E. symmetry. exact E.
    + right. split; [exact H | reflexivity].
Qed.

Lemma firstSeen_NoDup l : NoDup (Js.firstSeen l).
Proof.
  induction l as [|y l IH]; simpl; constructor.
  - rewrite filter_In. intros [_ H]. rewrite String.eqb_refl in H. discriminate.
  - apply NoDup_filter. exact IH.
Qed.

(** *** Catalog *)

Lemma forEachTopic_clusters ts : forall i generated,
  forEachTopic ts i generated = generated ++ clusters ts i.
Proof.
  induction ts as [|t r IH]; intros i generated; simpl.
  - symmetry. apply app_nil_r.
  - rewrite IH. unfold pushTopic, cluster. rewrite <- !app_assoc. reflexivity.
Qed.

Lemma clusters_length ts : forall i, List.length (clusters ts i) = 6 * List.length ts.
Proof.
  induction ts as [|t r IH]; intros i; [reflexivity|].
  cbn [clusters]. rewrite length_app, IH. cbn [List.length cluster videos articles
    interactives books app]. lia.
Qed.





Lemma allTopics_In files t :
  In t (allTopics files)
  <-> exists x ts, In x files /\ PdfUploader.topics x = Some ts /\ In t ts.
Proof.
  unfold allTopics. rewrite in_flat_map. split.
  - intros [x [Hx Ht]]. destruct (PdfUploader.topics x) as [ts|] eqn:E; [|contradiction].
    exists x, ts. repeat split; assumption.
  - intros [x [ts [Hx [E Ht]]]]. exists x. split; [exact Hx|]. rewrite E. exact Ht.
Qed.




Example catalog_two_files :
  map id (catalog [ PdfUploader.mkUploaded "a.pdf" "application/pdf" (PdfUploader.Href "#")
                      (Some ["Machine Learning"; "Data Science"]);
                    PdfUploader.mkUploaded "b.txt" "text/plain" (PdfUploader.Href "#")
                      (Some ["Machine Learning"]) ])
  = [ "video-0-1"; "video-0-2"; "article-0-1"; "article-0-2"; "interactive-0-1"; "book-0-1";
      "video-1-1"; "video-1-2"; "article-1-1"; "article-1-2"; "interactive-1-1"; "book-1-1" ].
Proof. reflexivity. Qed.

(** *** Filtering *)

Lemma byCategory_filter cat rs :
  byCategory cat rs = filter (categoryMatch cat) rs.
Proof.
  unfold byCategory, categoryMatch.
  destruct (String.eqb cat "all"); simpl.
  - symmetry. apply filter_id. reflexivity.
  - reflexivity.
Qed.

(** On a resource that carries tags the callback returns, and returns the
    disjunction of the four matches. *)
Lemma matchesQuery_tagged q r :
  tags r <> None -> matchesQuery q r = Some (textMatch q r).
Proof.
  intros H. unfold matchesQuery, textMatch, tagsOf.
  destruct (hit (title r) q); [reflexivity|].
  destruct (hit (description r) q); [reflexivity|].
  destruct (hit (topic r) q); [reflexivity|].
  destruct (tags r); [reflexivity | contradiction].
Qed.

Lemma filterThrowing_total {A} (p : A -> option bool) (b : A -> bool) l :
  Forall (fun x => p x = Some (b x)) l ->
  filterThrowing p l = Some (filter b l).
Proof.
  induction 1 as [|x l Hx _ IH]; [reflexivity|].
  simpl. rewrite Hx, IH. reflexivity.
Qed.

Lemma Forall_filter {A} (P : A -> Prop) (p : A -> bool) l :
  Forall P l -> Forall P (filter p l).
Proof.
  intros H. apply Forall_forall. intros x Hx.
  apply filter_In in Hx. rewrite Forall_forall in H. apply H. apply Hx.
Qed.

(** The whole filter, when every resource carries tags. *)
Lemma filtered_tagged rs cat q :
  Forall (fun r => tags r <> None) rs ->
  filtered rs cat q
  = Some (filter (fun r => categoryMatch cat r
                           && (negb (Js.truthy (Js.trim q)) || textMatch q r)) rs).
Proof.
  intros H. unfold filtered. rewrite byCategory_filter.
  destruct (Js.truthy (Js.trim q)); simpl.
  - rewrite (filterThrowing_total _ (textMatch q)).
    + rewrite filter_filter. reflexivity.
    + apply Forall_filter. revert H. apply Forall_impl.
      intros r. apply matchesQuery_tagged.
  - f_equal. apply filter_ext. intros r. rewrite andb_true_r. reflexivity.
Qed.

Lemma truthy_false s : Js.truthy s = false <-> s = "".
Proof. destruct s; simpl; split; intros H; try reflexivity; discriminate. Qed.

(** C8, amended: on a catalog whose resources all carry tags, the filter
    effect completes, leaves the catalog and the other cells as they are,
    and stores exactly the resources, in catalog order, that pass the
    category filter (the category is "all" or equals the resource's) and,
    unless the query is blank once trimmed, the text filter (the
    lower-cased query occurs in the lower-cased title, description, topic
    or a tag).  A non-blank query that matches nothing under the category
    leaves the result empty. *)
Theorem C8_filter_conjunctive :
  forall (s : State) (q : string),
    Forall (fun r => tags r <> None) (resources s) ->
    exists s',
      filterEffect q s = Some s'
      /\ resources s' = resources s
      /\ selectedCategory s' = selectedCategory s
      /\ favorites s' = favorites s
      /\ filteredResources s'
         = filter (fun r => categoryMatch (selectedCategory s) r
                            && (negb (Js.truthy (Js.trim q)) || textMatch q r))
             (resources s)
      /\ (forall r, In r (filteredResources s')
                    <-> In r (resources s)
                        /\ categoryMatch (selectedCategory s) r = true
                        /\ (Js.trim q = "" \/ textMatch q r = true))
      /\ (Js.trim q <> "" ->
          (forall r, In r (resources s) ->
                     categoryMatch (selectedCategory s) r = true ->
                     textMatch q r = false) ->
          filteredResources s' = []).
Proof.
  intros s q H.
  unfold filterEffect. rewrite (filtered_tagged _ _ _ H).
  eexists. split; [reflexivity|]. cbn [resources selectedCategory favorites filteredResources].
  split; [reflexivity|]. split; [reflexivity|]. split; [reflexivity|].
  split; [reflexivity|]. split.
  - intros r. rewrite filter_In, andb_true_iff, orb_true_iff, negb_true_iff, truthy_false.
    tauto.
  - intros Hq Hnone.
    assert (Ht : Js.truthy (Js.trim q) = true).
    { destruct (Js.truthy (Js.trim q)) eqn:E; [reflexivity|].
      apply truthy_false in E. contradiction. }
    rewrite Ht. simpl.
    induction (resources s) as [|r rs IH]; [reflexivity|].
    inversion H as [|? ? Hr Hrs]; subst.
    simpl.
    destruct (categoryMatch (selectedCategory s) r) eqn:Ec; simpl.
    + rewrite (Hnone r (or_introl eq_refl) Ec).
      apply IH; [exact Hrs | intros r' Hr'; apply Hnone; right; exact Hr'].
    + apply IH; [exact Hrs | intros r' Hr'; apply Hnone; right; exact Hr'].
Qed.

Lemma C8_filter_conjunctive_witness :
  Forall (fun r => tags r <> None)
         (catalog [PdfUploader.mkUploaded "notes.pdf" "application/pdf"
                     (PdfUploader.Href "#") (Some ["notes"])])
  /\ exists s',
       filterEffect "TUTORIAL"
         (mkState (catalog [PdfUploader.mkUploaded "notes.pdf" "application/pdf"
                              (PdfUploader.Href "#") (Some ["notes"])])
                  [] false "video" [] "grid") = Some s'
       /\ map id (filteredResources s') = ["video-0-1"].
Proof.
  assert (Ht : Forall (fun r => tags r <> None)
                 (catalog [PdfUploader.mkUploaded "notes.pdf" "application/pdf"
                             (PdfUploader.Href "#") (Some ["notes"])])).
  { repeat constructor; discriminate. }
  split; [exact Ht|].
  destruct (C8_filter_conjunctive
              (mkState (catalog [PdfUploader.mkUploaded "notes.pdf" "application/pdf"
                                   (PdfUploader.Href "#") (Some ["notes"])])
                       [] false "video" [] "grid")
              "TUTORIAL" Ht) as [s' [He [_ [_ [_ [Hf _]]]]]].
  exists s'. split; [exact He|]. rewrite Hf. reflexivity.
Defined.

(** C8 as stated fails on a query of white space only: it occurs in no
    title, description, topic or tag, yet the search step is skipped and
    the whole catalog comes back. *)
Lemma C8_counterexample_blank_query :
  filter (textMatch "   ")
         (catalog [PdfUploader.mkUploaded "notes.pdf" "application/pdf"
                     (PdfUploader.Href "#") (Some ["notes"])]) = []
  /\ filtered (catalog [PdfUploader.mkUploaded "notes.pdf" "application/pdf"
                          (PdfUploader.Href "#") (Some ["notes"])]) "all" "   "
     = Some (catalog [PdfUploader.mkUploaded "notes.pdf" "application/pdf"
                        (PdfUploader.Href "#") (Some ["notes"])])
  /\ List.length (catalog [PdfUploader.mkUploaded "notes.pdf" "application/pdf"
                             (PdfUploader.Href "#") (Some ["notes"])]) = 6.
Proof. repeat split. Qed.

(** The default resource has no tags: a query found in none of its title,
    description and topic makes the callback read [tags.some] of
    [undefined], and the effect throws. *)
Example default_catalog_search_throws :
  filtered (catalog []) "all" "zzz" = None
  /\ filtered (catalog []) "all" "learning" = Some defaultResources.
Proof. split; reflexivity. Qed.

(** *** Favorites *)

Lemma toggle_includes rid favs x :
  Js.arrIncludes (toggle rid favs) x
  = if String.eqb x rid then negb (Js.arrIncludes favs rid) else Js.arrIncludes favs x.
Proof.
  unfold toggle.
  destruct (Js.arrIncludes favs rid) eqn:E.
  - rewrite arrIncludes_remove.
    destruct (String.eqb x rid) eqn:E2; simpl.
    + apply andb_false_r.
    + apply andb_true_r.
  - rewrite arrIncludes_app, arrIncludes_single.
    destruct (String.eqb x rid) eqn:E2; simpl.
    + apply orb_true_r.
    + apply orb_false_r.
Qed.

Lemma remove_absent rid favs :
  Js.arrIncludes favs rid = false ->
  filter (fun i => negb (String.eqb i rid)) favs = favs.
Proof.
  intros H. apply filter_id. intros x Hx.
  destruct (String.eqb x rid) eqn:E; [|reflexivity].
  apply String.eqb_eq in E. subst x.
  apply arrIncludes_In in Hx. congruence.
Qed.

(** C10: toggling a resource id flips its favorite status and only its
    own (it is added when absent, removed when present), touches no other
    state cell, and toggling it twice gives back the same set of
    favorites; the array itself is restored when the id was absent, and
    has the id moved to its end when it was present. *)
Theorem C10_toggle_favorite :
  forall (s : State) (rid : string),
    isFavorite (toggleFavorite rid s) rid = negb (isFavorite s rid)
    /\ (forall other,
          isFavorite (toggleFavorite rid s) other
          = if String.eqb other rid then negb (isFavorite s rid)
            else isFavorite s other)
    /\ (forall x,
          isFavorite (toggleFavorite rid (toggleFavorite rid s)) x = isFavorite s x)
    /\ favorites (toggleFavorite rid (toggleFavorite rid s))
       = (if isFavorite s rid
          then filter (fun i => negb (String.eqb i rid)) (favorites s) ++ [rid]
          else favorites s)
    /\ resources (toggleFavorite rid s) = resources s
    /\ filteredResources (toggleFavorite rid s) = filteredResources s
    /\ selectedCategory (toggleFavorite rid s) = selectedCategory s.
Proof.
  intros s rid. unfold isFavorite, toggleFavorite. cbn [favorites resources
    filteredResources selectedCategory].
  split; [rewrite toggle_includes, String.eqb_refl; reflexivity|].
  split; [intros other; apply toggle_includes|].
  split.
  - intros x. rewrite !toggle_includes.
    destruct (String.eqb x rid) eqn:E.
    + rewrite String.eqb_refl, negb_involutive.
      apply String.eqb_eq in E. subst x. reflexivity.
    + reflexivity.
  - split; [|repeat split].
    unfold toggle at 1. rewrite toggle_includes, String.eqb_refl.
    destruct (Js.arrIncludes (favorites s) rid) eqn:E; simpl.
    + unfold toggle. rewrite E. reflexivity.
    + unfold toggle. rewrite E.
      rewrite filter_app. simpl. rewrite String.eqb_refl. simpl.
      rewrite app_nil_r. apply remove_absent. exact E.
Qed.

Example toggle_twice_present :
  toggle "video-0-1" (toggle "video-0-1" ["video-0-1"; "book-0-1"])
  = ["book-0-1"; "video-0-1"].
Proof. reflexivity. Qed.

End ResourcesProps.

(* ===================================================================== *)
(** ** Quiz: retake, bounds, perfect play, clock                          *)
(* ===================================================================== *)

Module QuizTimerProps.
Import Quiz QuizTimer QuizProps.

(** *** Retake *)

Lemma handleAnswer_isLoading v s :
  isLoading (stateOf (handleAnswer v s)) = isLoading s.
Proof.
  unfold handleAnswer. destruct (isAnswered s); [reflexivity|].
  destruct (index (questions s) (currentQuestion s)); reflexivity.
Qed.

Lemma step_isLoading a s : isLoading (st (step a s)) = isLoading (st s).
Proof.
  destruct a as [v|]; simpl.
  - apply handleAnswer_isLoading.
  - unfold nextQuestion. destruct (hasNext (st s)); reflexivity.
Qed.

Lemma run_isLoading acts : forall s, isLoading (st (run acts s)) = isLoading (st s).
Proof.
  induction acts as [|a acts IH]; intros s; simpl; [reflexivity|].
  unfold run in IH. rewrite IH. apply step_isLoading.
Qed.

Lemma stepEvent_kept e s :
  questions (st (stepEvent e s)) = questions (st s)
  /\ isLoading (st (stepEvent e s)) = isLoading (st s).
Proof.
  destruct e as [a| |]; cbn [stepEvent].
  - split; [apply step_questions | apply step_isLoading].
  - split; reflexivity.
  - split; reflexivity.
Qed.

Lemma runEvents_kept es : forall s,
  questions (st (runEvents es s)) = questions (st s)
  /\ isLoading (st (runEvents es s)) = isLoading (st s).
Proof.
  induction es as [|e es IH]; intros s; [split; reflexivity|].
  change (runEvents (e :: es) s) with (runEvents es (stepEvent e s)).
  destruct (IH (stepEvent e s)) as [H1 H2].
  destruct (stepEvent_kept e s) as [H3 H4].
  rewrite H1, H2, H3, H4. split; reflexivity.
Qed.

(** X1: a quiz whose questions [v] are loaded, with its clock at any
    reading [r].  Whatever happens next, in any order (answers, presses
    of Next, seconds counted by the timer, the time running out),
    [resetQuiz] then leaves the same questions, the first of them on
    screen, score 0, no answer selected, nothing answered, an empty
    transcript, the result hidden, and the clock set to the time limit
    [tl] (not to the reading it had when the questions were loaded). *)
Theorem resetQuiz_restores_loaded_state :
  forall (v : Value) (tl r : option nat) (es : list QuizEvent),
    resetQuiz tl (st (runEvents es
                        (mkSession (mkState v 0 0 "" false r false false [] false) [])))
    = mkState v 0 0 "" false tl false false [] false.
Proof.
  intros v tl r es. unfold resetQuiz.
  destruct (runEvents_kept es
              (mkSession (mkState v 0 0 "" false r false false [] false) [])) as [H1 H2].
  rewrite H1, H2. reflexivity.
Qed.

(** *** The current index stays in range *)

Lemma handleAnswer_inRange n v s : inRange n s -> inRange n (stateOf (handleAnswer v s)).
Proof.
  unfold inRange, handleAnswer. intros [H1 H2].
  destruct (isAnswered s) eqn:Ha; [simpl; rewrite Ha; split; assumption|].
  destruct (index (questions s) (currentQuestion s)); simpl; split; try assumption.
  - rewrite length_app. simpl. lia.
  - lia.
Qed.

Lemma nextQuestion_inRange s :
  inRange (List.length (items (questions s))) s ->
  inRange (List.length (items (questions s))) (fst (nextQuestion s)).
Proof.
  unfold inRange, nextQuestion, hasNext, lengthOf. intros [H1 H2].
  destruct (questions s) as [qs|t|] eqn:Eq; simpl in *; try lia.
  - destruct (currentQuestion s + 1 <? List.length qs) eqn:E; simpl.
    + apply Nat.ltb_lt in E. destruct (isAnswered s); lia.
    + split; assumption.
  - destruct (currentQuestion s + 1 <? List.length (repeat charQuestion (String.length t))) eqn:E;
      simpl.
    + apply Nat.ltb_lt in E. destruct (isAnswered s); lia.
    + split; assumption.
Qed.

Lemma run_inRange acts : forall s,
  inRange (List.length (items (questions (st s)))) (st s) ->
  inRange (List.length (items (questions (st s)))) (st (run acts s)).
Proof.
  induction acts as [|a acts IH]; intros s H; [exact H|].
  simpl. pose proof (step_questions a s) as Hq.
  specialize (IH (step a s)). rewrite Hq in IH. apply IH.
  destruct a as [v|]; simpl.
  - apply handleAnswer_inRange. exact H.
  - pose proof (nextQuestion_inRange (st s) H) as H'.
    destruct (nextQuestion (st s)). exact H'.
Qed.

(** X2: in a session over an array of questions that is not empty, the
    index of the current question stays below the number of questions
    through every sequence of [submitAnswer] and [advance] calls; so
    [handleAnswer] always finds its question and returns, and the
    transcript never has more entries than there are questions. *)
Theorem currentQuestion_stays_in_range :
  forall (qs : list Question) (tl : option nat) (acts : list Action) (value : string),
    qs <> [] ->
    currentQuestion (st (run acts (sessionOf (Arr qs) tl))) < List.length qs
    /\ List.length (userAnswers (st (run acts (sessionOf (Arr qs) tl)))) <= List.length qs
    /\ questionText (st (run acts (sessionOf (Arr qs) tl))) <> None
    /\ exists s', handleAnswer value (st (run acts (sessionOf (Arr qs) tl))) = Returned s'.
Proof.
  intros qs tl acts value Hne.
  assert (H0 : inRange (List.length (items (questions (st (sessionOf (Arr qs) tl)))))
                 (st (sessionOf (Arr qs) tl))).
  { unfold inRange. simpl. destruct qs; [contradiction|]. simpl. lia. }
  pose proof (run_inRange acts _ H0) as [H1 H2].
  simpl in H1, H2.
  pose proof (run_questions acts (sessionOf (Arr qs) tl)) as Hq. simpl in Hq.
  assert (Hi : exists q, index (questions (st (run acts (sessionOf (Arr qs) tl))))
                           (currentQuestion (st (run acts (sessionOf (Arr qs) tl)))) = Some q).
  { rewrite Hq. unfold index. simpl.
    destruct (nth_error qs (currentQuestion (st (run acts (sessionOf (Arr qs) tl))))) eqn:E;
      [eexists; reflexivity|].
    apply nth_error_None in E. lia. }
  destruct Hi as [q Hi].
  split; [exact H1|]. split.
  - destruct (isAnswered (st (run acts (sessionOf (Arr qs) tl)))); lia.
  - split.
    + unfold questionText. rewrite Hi. discriminate.
    + unfold handleAnswer.
      destruct (isAnswered (st (run acts (sessionOf (Arr qs) tl)))); [eexists; reflexivity|].
      rewrite Hi. eexists; reflexivity.
Qed.

Lemma currentQuestion_stays_in_range_witness :
  mediumBank "notes" <> []
  /\ currentQuestion (st (run [SubmitAnswer "x"; Advance; Advance; Advance]
                              (sessionOf (Arr (mediumBank "notes")) None))) < 2.
Proof.
  split; [discriminate|].
  apply (currentQuestion_stays_in_range (mediumBank "notes") None
           [SubmitAnswer "x"; Advance; Advance; Advance] "y").
  discriminate.
Defined.

(** *** Perfect play *)










(** *** The clock *)

Lemma allDigits_string_of_uint d : allDigits (NilEmpty.string_of_uint d) = true.
Proof. induction d; simpl; try rewrite IHd; reflexivity. Qed.

Lemma allDigits_ofNat n : allDigits (Js.ofNat n) = true.
Proof. apply allDigits_string_of_uint. Qed.

Lemma ofNat_inj a b : Js.ofNat a = Js.ofNat b -> a = b.
Proof.
  unfold Js.ofNat. intros H.
  apply (f_equal NilEmpty.uint_of_string) in H.
  rewrite !NilEmpty.usu in H. injection H as H.
  apply (f_equal Nat.of_uint) in H.
  rewrite !DecimalNat.Unsigned.of_to in H. exact H.
Qed.

(** Two texts of digits followed by a colon agree on both sides of it. *)
Lemma colon_splits a : forall b x y,
  allDigits a = true -> allDigits b = true ->
  a +++ String ":" x = b +++ String ":" y -> a = b /\ x = y.
Proof.
  induction a as [|c a IH]; intros [|c' b] x y Ha Hb H; simpl in *.
  - injection H as ->. split; reflexivity.
  - injection H as <- _. discriminate.
  - injection H as -> _. discriminate.
  - injection H as -> H.
    apply andb_true_iff in Ha, Hb.
    destruct (IH b x y (proj2 Ha) (proj2 Hb) H) as [-> ->]. split; reflexivity.
Qed.

(** The seconds field: two digits, from which the number is read back. *)
Lemma padded_seconds s :
  s < 60 ->
  String.length (padStart2 (Js.ofNat s)) = 2
  /\ allDigits (padStart2 (Js.ofNat s)) = true
  /\ option_map Nat.of_uint (NilEmpty.uint_of_string (padStart2 (Js.ofNat s))) = Some s.
Proof.
  intros H.
  do 60 (destruct s as [|s]; [repeat split|]).
  lia.
Qed.

(** X4: [formatTime] writes the minutes, a colon and the seconds on
    exactly two digits, and two different numbers of seconds are never
    written the same way. *)
Theorem formatTime_two_digit_seconds_injective :
  forall n : nat,
    exists ss,
      formatTime n = Js.ofNat (n / 60) +++ ":" +++ ss
      /\ String.length ss = 2
      /\ allDigits ss = true
      /\ (forall m, formatTime m = formatTime n -> m = n).
Proof.
  intros n.
  assert (Hn : n mod 60 < 60) by (apply Nat.mod_upper_bound; discriminate).
  destruct (padded_seconds _ Hn) as [Hl [Hd Hr]].
  exists (padStart2 (Js.ofNat (n mod 60))).
  split; [reflexivity|]. split; [exact Hl|]. split; [exact Hd|].
  intros m H. unfold formatTime in H.
  assert (Hm : m mod 60 < 60) by (apply Nat.mod_upper_bound; discriminate).
  destruct (padded_seconds _ Hm) as [_ [_ Hr']].
  apply colon_splits in H; try apply allDigits_ofNat.
  destruct H as [Hq Hs].
  apply ofNat_inj in Hq.
  assert (Hmod : m mod 60 = n mod 60) by congruence.
  pose proof (Nat.div_mod_eq m 60) as Em.
  pose proof (Nat.div_mod_eq n 60) as En.
  lia.
Qed.

Example formatTime_examples :
  formatTime 0 = "0:00" /\ formatTime 65 = "1:05" /\ formatTime 600 = "10:00"
  /\ formatTime 3599 = "59:59".
Proof. repeat split. Qed.

(** *** The countdown *)

Lemma seconds_S k s : seconds (S k) s = timerFires (seconds k s).
Proof. reflexivity. Qed.

Lemma seconds_cells k : forall s n,
  timeRemaining s = Some n ->
  timeRemaining (seconds k s) = Some (n - k)
  /\ showResult (seconds k s) = showResult s
  /\ score (seconds k s) = score s
  /\ questions (seconds k s) = questions s.
Proof.
  induction k as [|k IH]; intros s n H.
  - simpl. rewrite H, Nat.sub_0_r. repeat split.
  - rewrite seconds_S. destruct (IH s n H) as [H1 [H2 [H3 H4]]].
    unfold timerFires. cbn [timeRemaining showResult score questions].
    rewrite H1. repeat split; try assumption.
    f_equal. lia.
Qed.

(** X5: a quiz with a time limit of [n] seconds whose result is not yet
    shown: the timer effect starts the one-second timer at each of the
    first [n] seconds, and at the [n]-th the remaining time is 0 and the
    effect calls [handleTimeUp], which shows the result and reports the
    score and the number of questions with [timeUp] set and no
    percentage.  The state it leaves still makes the effect call
    [handleTimeUp].  A limit of 0 times out at once. *)
Theorem countdown_reaches_time_up :
  forall (n : nat) (s : State),
    timeRemaining s = Some n ->
    showResult s = false ->
    (forall k, k < n -> timerEffect (Some n) (seconds k s) = Schedule)
    /\ timeRemaining (seconds n s) = Some 0
    /\ timerEffect (Some n) (seconds n s) = TimeUp
    /\ showResult (fst (handleTimeUp (seconds n s))) = true
    /\ snd (handleTimeUp (seconds n s))
       = mkCompletion (score s) (lengthOf (questions s)) None None true
    /\ timerEffect (Some n) (fst (handleTimeUp (seconds n s))) = TimeUp.
Proof.
  intros n s Hr Hs.
  assert (Hz : timeRemaining (seconds n s) = Some 0).
  { destruct (seconds_cells n s n Hr) as [H _]. rewrite H. f_equal. lia. }
  split.
  - intros k Hk.
    destruct (seconds_cells k s n Hr) as [H1 [H2 _]].
    unfold timerEffect, remainingPositive, limitSet. rewrite H1, H2, Hs.
    destruct n as [|n]; [lia|].
    destruct (S n - k) eqn:E; [lia|]. reflexivity.
  - split; [exact Hz|].
    assert (Ht : forall x, timeRemaining x = Some 0 -> timerEffect (Some n) x = TimeUp).
    { intros x Hx. unfold timerEffect, remainingPositive, remainingZero. rewrite Hx.
      rewrite andb_false_r. reflexivity. }
    split; [apply Ht; exact Hz|].
    split; [reflexivity|].
    split.
    + destruct (seconds_cells n s n Hr) as [_ [_ [H3 H4]]].
      unfold handleTimeUp. cbn [snd]. rewrite H3, H4. reflexivity.
    + apply Ht. exact Hz.
Qed.

Lemma countdown_reaches_time_up_witness :
  timeRemaining (st (sessionOf (Arr (easyBank "notes")) (Some 3))) = Some 3
  /\ showResult (st (sessionOf (Arr (easyBank "notes")) (Some 3))) = false
  /\ timerEffect (Some 3) (seconds 3 (st (sessionOf (Arr (easyBank "notes")) (Some 3)))) = TimeUp.
Proof.
  split; [reflexivity|]. split; [reflexivity|].
  destruct (countdown_reaches_time_up 3 (st (sessionOf (Arr (easyBank "notes")) (Some 3)))
              eq_refl eq_refl) as [_ [_ [H _]]].
  exact H.
Defined.

(** Without a limit the effect never does anything, and a shown result
    stops a running clock. *)
Lemma no_limit_no_timer s : timeRemaining s = None -> timerEffect None s = Idle.
Proof. intros H. unfold timerEffect, remainingZero. rewrite H. reflexivity. Qed.

Lemma result_stops_clock tl s k :
  showResult s = true -> timeRemaining s = Some (S k) -> timerEffect tl s = Idle.
Proof.
  intros H1 H2. unfold timerEffect, remainingZero. rewrite H1, H2.
  rewrite andb_false_r. reflexivity.
Qed.

End QuizTimerProps.

(* ===================================================================== *)
(** ** Question paper: topics and numbering                               *)
(* ===================================================================== *)

Module QuestionPaperTopicsProps.
Import QuestionPaper QuestionPaperTopics.

(** *** Toggling *)

Lemma toggled_is_toggle t l : toggled t l = Resources.toggle t l.
Proof. reflexivity. Qed.

Lemma toggle_NoDup x l : NoDup l -> NoDup (Resources.toggle x l).
Proof.
  intros H. unfold Resources.toggle.
  destruct (Js.arrIncludes l x) eqn:E.
  - apply NoDup_filter. exact H.
  - apply NoDup_app; [exact H | repeat constructor; intros [] |].
    intros a Ha [<- | []].
    apply ResourcesProps.arrIncludes_In in Ha. congruence.
Qed.

Lemma count_occ_snoc (l : list string) x t :
  count_occ string_dec (l ++ [x]) t
  = count_occ string_dec l t + (if String.eqb t x then 1 else 0).
Proof.
  rewrite count_occ_app. f_equal. simpl.
  destruct (string_dec x t) as [->|Hne].
  - rewrite String.eqb_refl. reflexivity.
  - destruct (String.eqb t x) eqn:E; [|reflexivity].
    apply String.eqb_eq in E. congruence.
Qed.

(** Membership after a sequence of toggles, from the empty array. *)
Lemma toggles_parity ts : forall t,
  Js.arrIncludes (fold_left (fun acc x => Resources.toggle x acc) ts []) t
  = Nat.odd (count_occ string_dec ts t).
Proof.
  induction ts as [|x ts IH] using rev_ind; intros t; [reflexivity|].
  rewrite fold_left_app. cbn [fold_left].
  rewrite ResourcesProps.toggle_includes, count_occ_snoc.
  destruct (String.eqb t x) eqn:E.
  - apply String.eqb_eq in E. subst x.
    rewrite IH, Nat.add_1_r, Nat.odd_succ, Nat.negb_odd. reflexivity.
  - rewrite IH, Nat.add_0_r. reflexivity.
Qed.

Lemma toggles_NoDup ts :
  NoDup (fold_left (fun acc x => Resources.toggle x acc) ts []).
Proof.
  induction ts as [|x ts IH] using rev_ind; [constructor|].
  rewrite fold_left_app. cbn [fold_left]. apply toggle_NoDup. exact IH.
Qed.

Lemma afterToggles_selected ts : forall s,
  selectedTopics (afterToggles ts s)
  = fold_left (fun acc x => Resources.toggle x acc) ts (selectedTopics s).
Proof.
  induction ts as [|t ts IH]; intros s; [reflexivity|].
  simpl. rewrite IH. reflexivity.
Qed.

(** X6: after any sequence of clicks on topic check boxes, starting from
    the mounted generator, a topic is selected exactly when it was
    clicked an odd number of times, and the list of selected topics
    holds no topic twice. *)
Theorem selected_topics_by_parity :
  forall (ts : list string),
    NoDup (selectedTopics (afterToggles ts mount))
    /\ forall t, checked (afterToggles ts mount) t = Nat.odd (count_occ string_dec ts t).
Proof.
  intros ts. unfold checked. rewrite afterToggles_selected. split.
  - apply toggles_NoDup.
  - apply toggles_parity.
Qed.

(** *** Numbering and topic of the questions *)

Lemma seq_plus_one k : forall a, map (fun i => i + 1) (seq a k) = seq (a + 1) k.
Proof.
  induction k as [|k IH]; intros a; [reflexivity|].
  simpl. rewrite IH. reflexivity.
Qed.

Lemma arrayFrom_ids (n : Z) (f : nat -> PaperQuestion) :
  (forall i, id (f i) = i + 1) ->
  map id (Js.arrayFrom n f) = seq 1 (Z.to_nat n).
Proof.
  intros H. unfold Js.arrayFrom. rewrite map_map.
  rewrite (map_ext _ (fun i => i + 1) H). apply seq_plus_one.
Qed.

(** X7: in every generated paper, for every integer configuration, the
    questions of each section are numbered 1, 2, 3, ... in order, and
    each carries the difficulty the paper was generated for. *)
Theorem sections_numbered_from_one :
  forall (d today : string) (ts : list string) (m s l lim : Z) (sec : Section_),
    In sec (p_sections (generate d today ts m s l lim)) ->
    map id (questions sec) = seq 1 (List.length (questions sec))
    /\ Forall (fun q => difficulty q = d) (questions sec).
Proof.
  intros d today ts m s l lim sec H.
  cbn in H. destruct H as [<- | [<- | [<- | []]]]; cbn [questions]; split;
    try (rewrite QuestionPaperProps.arrayFrom_length; apply arrayFrom_ids;
         intros i; reflexivity);
    apply QuestionPaperProps.arrayFrom_Forall; intros i; reflexivity.
Qed.

Lemma sections_numbered_from_one_witness :
  map id (Js.arrayFrom 3 (shortQuestion "easy" ["notes"])) = [1; 2; 3].
Proof.
  destruct (sections_numbered_from_one "easy" "11/3/2026" ["notes"] 2 3 1 60
              (mkSection "B" "Short Answer Questions" "Answer in 2-3 sentences."
                 (Js.arrayFrom 3 (shortQuestion "easy" ["notes"])) (3 * 3)%Z)) as [H _].
  - right. left. reflexivity.
  - exact H.
Defined.

Lemma prefix_self s r : prefix s (s +++ r) = true.
Proof.
  induction s as [|c s IH]; simpl.
  - destruct r; reflexivity.
  - destruct (ascii_dec c c) as [_|N]; [exact IH | contradiction].
Qed.

Lemma includes_self s r : Js.includes (s +++ r) s = true.
Proof.
  destruct s as [|c s].
  - destruct r; reflexivity.
  - cbn [String.append Js.includes].
    change (String c (s +++ r)) with (String c s +++ r).
    rewrite prefix_self. reflexivity.
Qed.

Lemma includes_after a : forall s sub,
  Js.includes s sub = true -> Js.includes (a +++ s) sub = true.
Proof.
  induction a as [|c a IH]; intros s sub H; [exact H|].
  cbn [String.append Js.includes].
  destruct (prefix sub (String c (a +++ s))); [reflexivity|].
  apply IH. exact H.
Qed.

Lemma firstTopicOr_selected t rest fallback :
  Js.truthy t = true -> firstTopicOr (t :: rest) fallback = t.
Proof. intros H. unfold firstTopicOr. rewrite H. reflexivity. Qed.

Lemma mcq_mentions d ts i t :
  firstTopicOr ts "uploaded content" = t ->
  Js.includes (question (mcqQuestion d ts i)) t = true.
Proof.
  intros <-. unfold mcqQuestion. cbn [question].
  apply (includes_after "Sample MCQ "), (includes_after (Js.ofNat (i + 1))),
    (includes_after " based on "), includes_self.
Qed.

Lemma short_mentions d ts i t :
  firstTopicOr ts "document content" = t ->
  Js.includes (question (shortQuestion d ts i)) t = true.
Proof.
  intros <-. unfold shortQuestion. cbn [question].
  apply (includes_after "Short answer question "), (includes_after (Js.ofNat (i + 1))),
    (includes_after " about "), includes_self.
Qed.

Lemma long_mentions d ts i t :
  firstTopicOr ts "uploaded material" = t ->
  Js.includes (question (longQuestion d ts i)) t = true.
Proof.
  intros <-. unfold longQuestion. cbn [question].
  apply (includes_after "Detailed question "), (includes_after (Js.ofNat (i + 1))),
    (includes_after " requiring comprehensive analysis of "), includes_self.
Qed.

(** X8: when the first selected topic is not the empty string, the paper
    is about the selected topics (its subject is their list joined by
    commas) and the text of every question of every section contains
    that first topic; the other selected topics appear in no question
    template. *)
Theorem questions_mention_first_topic :
  forall (d today t : string) (rest : list string) (m s l lim : Z) (q : PaperQuestion),
    Js.truthy t = true ->
    In q (allQuestions (generate d today (t :: rest) m s l lim)) ->
    Js.includes (question q) t = true
    /\ p_subject (generate d today (t :: rest) m s l lim) = join (t :: rest).
Proof.
  intros d today t rest m s l lim q Ht H.
  split; [|reflexivity].
  unfold allQuestions in H. cbn [generate generatePaper_timer generatePaper_click snd
    samplePaper p_sections flat_map questions questionCount selectedTopics
    mcq short long] in H.
  rewrite app_nil_r in H.
  unfold Js.arrayFrom in H.
  repeat (apply in_app_or in H; destruct H as [H | H]);
    apply in_map_iff in H; destruct H as [i [<- _]].
  - apply mcq_mentions. apply firstTopicOr_selected. exact Ht.
  - apply short_mentions. apply firstTopicOr_selected. exact Ht.
  - apply long_mentions. apply firstTopicOr_selected. exact Ht.
Qed.

Lemma questions_mention_first_topic_witness :
  Js.truthy "Graphs" = true
  /\ Js.includes (question (longQuestion "hard" ["Graphs"; "Trees"] 0)) "Graphs" = true.
Proof.
  split; [reflexivity|].
  apply (questions_mention_first_topic "hard" "11/3/2026" "Graphs" ["Trees"] 0 0 1 60
           (longQuestion "hard" ["Graphs"; "Trees"] 0) eq_refl).
  left. reflexivity.
Defined.

(** With nothing selected the generic phrases stand in. *)
Example questions_without_topic :
  map question (allQuestions (generate "easy" "11/3/2026" [] 1 1 1 60))
  = [ "Sample MCQ 1 based on uploaded content?";
      "Short answer question 1 about document content.";
      "Detailed question 1 requiring comprehensive analysis of uploaded material." ]
  /\ p_subject (generate "easy" "11/3/2026" [] 1 1 1 60) = "General Studies".
Proof. split; reflexivity. Qed.

(** *** Topics offered *)

(** X9: the topics offered for selection.  For files that came through
    the upload intake they are the intake's topics, one per file in
    upload order, the same list the resources browser starts from.  A
    file record without a [topics] field is offered under the part of
    its name before the first dot, while the resources browser takes no
    topic from it; a record with an empty [topics] array offers
    nothing. *)
Theorem availableTopics_of_uploads :
  forall (fs : list PdfUploader.File),
    availableTopics (map PdfUploader.fileData fs)
    = map (fun f => PdfUploader.topicOfName (PdfUploader.f_name f)) fs
    /\ Resources.allTopics (map PdfUploader.fileData fs)
       = availableTopics (map PdfUploader.fileData fs)
    /\ (forall n ty u,
          availableTopics [PdfUploader.mkUploaded n ty u None] = [PdfUploader.topicOfName n]
          /\ Resources.allTopics [PdfUploader.mkUploaded n ty u None] = []
          /\ availableTopics [PdfUploader.mkUploaded n ty u (Some [])] = []).
Proof.
  intros fs. split; [|split].
  - induction fs as [|f fs IH]; [reflexivity|].
    simpl. f_equal. exact IH.
  - induction fs as [|f fs IH]; [reflexivity|].
    simpl. f_equal. exact IH.
  - intros n ty u. repeat split.
Qed.

End QuestionPaperTopicsProps.

(* ===================================================================== *)
(** ** Chat                                                               *)
(* ===================================================================== *)

Module ChatProps.
Import Chat.

Lemma count_snoc p ms m : count p (ms ++ [m]) = count p ms + (if p m then 1 else 0).
Proof.
  unfold count. rewrite filter_app, length_app. simpl.
  destruct (p m); reflexivity.
Qed.

Lemma handleSend_consistent now s : consistent s -> consistent (handleSend now s).
Proof.
  unfold consistent, handleSend. intros [H1 [H2 [H3 H4]]].
  destruct (Js.truthy (Js.trim (input s))) eqn:E; [|repeat split; assumption].
  cbn [messages replies isTyping]. rewrite !count_snoc. cbn [isUser isAi sender].
  split; [lia|]. split; [|split].
  - apply Forall_app. split; [exact H2|]. constructor; [|constructor].
    intros _. exact E.
  - apply Forall_app. split; [exact H3|]. constructor; [|constructor].
    intros H. discriminate.
  - intros _. lia.
Qed.

Lemma replyFires_consistent p now s : consistent s -> consistent (replyFires p now s).
Proof.
  unfold consistent, replyFires. intros [H1 [H2 [H3 H4]]].
  destruct (replies s) as [|k] eqn:E; [rewrite E; repeat split; assumption|].
  cbn [messages replies isTyping]. rewrite !count_snoc. cbn [isUser isAi sender].
  split; [lia|]. split; [|split].
  - apply Forall_app. split; [exact H2|]. constructor; [|constructor].
    intros H. discriminate.
  - apply Forall_app. split; [exact H3|]. constructor; [|constructor].
    intros _. exists p. reflexivity.
  - intros H. discriminate.
Qed.

Lemma step_consistent e s : consistent s -> consistent (step e s).
Proof.
  destruct e; cbn [step]; intros H;
    try exact H;
    try (apply handleSend_consistent; exact H);
    try (apply replyFires_consistent; exact H).
  unfold handleKeyPress.
  destruct (String.eqb key "Enter" && negb shiftKey);
    [apply handleSend_consistent|]; exact H.
Qed.

Lemma step_grows e s : exists more, messages (step e s) = messages s ++ more.
Proof.
  destruct e; cbn [step];
    try (exists []; rewrite app_nil_r; reflexivity).
  - unfold handleSend. destruct (Js.truthy (Js.trim (input s)));
      [eexists; reflexivity | exists []; rewrite app_nil_r; reflexivity].
  - unfold handleKeyPress, handleSend.
    destruct (String.eqb key "Enter" && negb shiftKey);
      [|exists []; rewrite app_nil_r; reflexivity].
    destruct (Js.truthy (Js.trim (input s)));
      [eexists; reflexivity | exists []; rewrite app_nil_r; reflexivity].
  - unfold replyFires. destruct (replies s);
      [exists []; rewrite app_nil_r; reflexivity | eexists; reflexivity].
Qed.

Lemma run_grows es : forall s, exists more, messages (run es s) = messages s ++ more.
Proof.
  induction es as [|e es IH]; intros s.
  - exists []. rewrite app_nil_r. reflexivity.
  - change (run (e :: es) s) with (run es (step e s)).
    destruct (IH (step e s)) as [m1 H1]. destruct (step_grows e s) as [m2 H2].
    exists (m2 ++ m1). rewrite H1, H2, app_assoc. reflexivity.
Qed.

(** X10: whatever is typed, suggested, sent and answered in the chat,
    starting from the mounted component: the user messages are as many
    as the replies given plus the reply timers still running; no user
    message is blank; every reply is one of the four canned responses;
    the typing indicator is on only while a reply is due; and the
    conversation only grows at its end, earlier messages are never
    removed or changed. *)
Theorem chat_is_consistent_and_append_only :
  forall (es : list Event),
    consistent (run es mount)
    /\ forall es', exists more,
         messages (run (es ++ es') mount) = messages (run es mount) ++ more.
Proof.
  intros es. split.
  - assert (G : forall l s, consistent s -> consistent (run l s)).
    { induction l as [|e l IH]; intros s H; [exact H|].
      simpl. apply IH. apply step_consistent. exact H. }
    apply G. unfold consistent, mount. simpl.
    repeat split; try constructor. discriminate.
  - intros es'. unfold run. rewrite fold_left_app. apply run_grows.
Qed.

(** Enter sends what a suggestion put in the input; Shift+Enter does not. *)
Example suggestion_then_enter :
  messages (run [Open; Suggest "Can you summarize the key points?"; Key "Enter" false 7] mount)
  = [mkMessage User "Can you summarize the key points?" 7]
  /\ messages (run [Open; Suggest "Can you summarize the key points?"; Key "Enter" true 7] mount)
     = []
  /\ messages (run [Open; Type_ "   "; Send 7] mount) = [].
Proof. repeat split. Qed.

End ChatProps.

(* ===================================================================== *)
(** ** Application shell                                                  *)
(* ===================================================================== *)

Module AppProps.
Import App.

(** One file through the intake, when no upload is in flight. *)
Lemma upload_round f u :
  PdfUploader.timers u = [] ->
  PdfUploader.timers (PdfUploader.timerFires (PdfUploader.handleFileChange [f] u)) = []
  /\ PdfUploader.calls (PdfUploader.timerFires (PdfUploader.handleFileChange [f] u))
     = PdfUploader.calls u ++ (if accepted f then callsFor [f] else []).
Proof.
  intros H. unfold PdfUploader.handleFileChange. fold (accepted f).
  destruct (accepted f); cbn [negb];
    unfold PdfUploader.timerFires; cbn [PdfUploader.timers PdfUploader.calls];
    rewrite H; cbn [app PdfUploader.timers PdfUploader.calls].
  - split; reflexivity.
  - split; [reflexivity | rewrite app_nil_r; reflexivity].
Qed.

Lemma uploadEach_calls fs : forall u,
  PdfUploader.timers u = [] ->
  PdfUploader.timers (uploadEach fs u) = []
  /\ PdfUploader.calls (uploadEach fs u)
     = PdfUploader.calls u ++ callsFor (filter accepted fs).
Proof.
  induction fs as [|f fs IH]; intros u H.
  - simpl. rewrite app_nil_r. split; [exact H | reflexivity].
  - destruct (upload_round f u H) as [H1 H2].
    destruct (IH _ H1) as [H3 H4].
    change (uploadEach (f :: fs) u)
      with (uploadEach fs (PdfUploader.timerFires (PdfUploader.handleFileChange [f] u))).
    split; [exact H3|].
    rewrite H4, H2, <- app_assoc. f_equal.
    cbn [filter]. destruct (accepted f); reflexivity.
Qed.

Lemma last_cons_default {A} (l : list A) : forall x d, last (x :: l) d = last l x.
Proof.
  induction l as [|y l IH]; intros x d; [reflexivity|].
  change (last (x :: y :: l) d) with (last (y :: l) d).
  rewrite (IH y d), (IH y x). reflexivity.
Qed.

Lemma deliverAll_callsFor fs : forall s,
  uploadedFiles (deliverAll (callsFor fs) s)
  = uploadedFiles s ++ map PdfUploader.fileData fs
  /\ detectedTopic (deliverAll (callsFor fs) s)
     = last (map (fun f => Some (PdfUploader.topicOfName (PdfUploader.f_name f))) fs)
            (detectedTopic s)
  /\ toastTimers (deliverAll (callsFor fs) s) = toastTimers s + List.length fs
  /\ showQuizSuggestion (deliverAll (callsFor fs) s) = showQuizSuggestion s.
Proof.
  induction fs as [|f fs IH]; intros s.
  - simpl. rewrite app_nil_r, Nat.add_0_r. repeat split.
  - change (deliverAll (callsFor (f :: fs)) s)
      with (deliverAll (callsFor fs)
              (handleTopicDetected (Some (PdfUploader.topicOfName (PdfUploader.f_name f)))
                 (handleFileUpload (PdfUploader.fileData f) s))).
    destruct (IH (handleTopicDetected (Some (PdfUploader.topicOfName (PdfUploader.f_name f)))
                    (handleFileUpload (PdfUploader.fileData f) s))) as [H1 [H2 [H3 H4]]].
    rewrite H1, H2, H3, H4.
    cbn [handleTopicDetected handleFileUpload suggestionEffect displayToast
         uploadedFiles detectedTopic toastTimers showQuizSuggestion].
    split; [rewrite <- app_assoc; reflexivity|].
    split; [|split; [simpl; lia | reflexivity]].
    cbn [map]. rewrite last_cons_default. reflexivity.
Qed.

(** X11: the user picks files one after the other, each upload finishing
    before the next one starts, and the shell receives the calls of the
    intake.  Then the shell holds one record per accepted file, in
    picking order, each with the part of its name before the first dot
    as only topic; rejected files leave no trace; the detected topic is
    that of the last accepted file; one toast timer was started per
    accepted file; and no upload is left in flight. *)
Theorem uploads_reach_the_shell :
  forall (fs : list PdfUploader.File),
    PdfUploader.timers (uploadEach fs PdfUploader.mount) = []
    /\ PdfUploader.calls (uploadEach fs PdfUploader.mount) = callsFor (filter accepted fs)
    /\ uploadedFiles (deliverAll (PdfUploader.calls (uploadEach fs PdfUploader.mount)) mount)
       = map PdfUploader.fileData (filter accepted fs)
    /\ detectedTopic (deliverAll (PdfUploader.calls (uploadEach fs PdfUploader.mount)) mount)
       = last (map (fun f => Some (PdfUploader.topicOfName (PdfUploader.f_name f)))
                   (filter accepted fs))
              (Some "")
    /\ toastTimers (deliverAll (PdfUploader.calls (uploadEach fs PdfUploader.mount)) mount)
       = List.length (filter accepted fs).
Proof.
  intros fs.
  destruct (uploadEach_calls fs PdfUploader.mount eq_refl) as [H1 H2].
  simpl in H2. rewrite H2.
  destruct (deliverAll_callsFor (filter accepted fs) mount) as [H3 [H4 [H5 _]]].
  split; [exact H1|]. split; [reflexivity|].
  split; [exact H3|]. split; [exact H4|]. exact H5.
Qed.

Example uploads_example :
  map PdfUploader.name
      (uploadedFiles
         (deliverAll
            (PdfUploader.calls
               (uploadEach [ PdfUploader.mkFile "notes.pdf" "application/pdf";
                             PdfUploader.mkFile "photo.png" "image/png";
                             PdfUploader.mkFile "essay.v2.txt" "text/plain" ]
                           PdfUploader.mount))
            mount))
  = ["notes.pdf"; "essay.v2.txt"].
Proof. reflexivity. Qed.

(** The topic of the quiz page, case by case. *)
Lemma quizTopic_cases s :
  (uploadedFiles s = [] -> quizTopic s = None)
  /\ (forall f rest t,
        uploadedFiles s = f :: rest ->
        detectedTopic s = Some t -> Js.truthy t = true ->
        quizTopic s = Some (Some t))
  /\ (forall f rest t ts,
        uploadedFiles s = f :: rest ->
        topicSet (detectedTopic s) = false ->
        PdfUploader.topics f = Some (t :: ts) ->
        quizTopic s = Some (Some t)).
Proof.
  unfold quizTopic. repeat split.
  - intros ->. reflexivity.
  - intros f rest t -> Ht Htr. unfold topicSet. rewrite Ht, Htr. reflexivity.
  - intros f rest t ts -> Hd Hf. rewrite Hd, Hf. reflexivity.
Qed.

Lemma last_map_nonempty {A B} (h : A -> B) (l : list A) : forall a d,
  last (map h (a :: l)) d = h (last (a :: l) a).
Proof.
  induction l as [|b l IH]; intros a d; [reflexivity|].
  change (last (map h (a :: b :: l)) d) with (last (map h (b :: l)) d).
  change (last (a :: b :: l) a) with (last (b :: l) a).
  rewrite (IH b d). f_equal.
  rewrite !last_cons_default. reflexivity.
Qed.

(** X12: the quiz page after the uploads of X11.  With no accepted file
    there is no quiz.  Otherwise the quiz is about the last accepted
    file, by the part of its name before the first dot, and not about
    the first one; only when that part is empty (the name starts with a
    dot) does the topic of the first accepted file take its place. *)
Theorem quiz_is_about_last_upload :
  forall (fs : list PdfUploader.File),
    quizTopic (deliverAll (PdfUploader.calls (uploadEach fs PdfUploader.mount)) mount)
    = match filter accepted fs with
      | [] => None
      | f :: rest =>
          Some (Some
                  (if Js.truthy (PdfUploader.topicOfName
                                   (PdfUploader.f_name (last (f :: rest) f)))
                   then PdfUploader.topicOfName (PdfUploader.f_name (last (f :: rest) f))
                   else PdfUploader.topicOfName (PdfUploader.f_name f)))
      end.
Proof.
  intros fs.
  destruct (uploadEach_calls fs PdfUploader.mount eq_refl) as [_ Hc].
  simpl in Hc. rewrite Hc.
  destruct (deliverAll_callsFor (filter accepted fs) mount) as [Hf [Hd _]].
  simpl in Hf, Hd.
  unfold quizTopic. rewrite Hf, Hd.
  destruct (filter accepted fs) as [|f rest]; [reflexivity|].
  rewrite (last_map_nonempty
             (fun f0 => Some (PdfUploader.topicOfName (PdfUploader.f_name f0)))).
  cbn [map topicSet].
  destruct (Js.truthy (PdfUploader.topicOfName (PdfUploader.f_name (last (f :: rest) f))));
    reflexivity.
Qed.

(** After the uploads of X11: the last accepted file names the quiz,
    unless its name starts with a dot, in which case the first one does. *)
Example quizTopic_after_uploads :
  quizTopic (deliverAll
               (PdfUploader.calls
                  (uploadEach [ PdfUploader.mkFile "algebra.pdf" "application/pdf";
                                PdfUploader.mkFile "graphs.txt" "text/plain" ]
                              PdfUploader.mount)) mount)
  = Some (Some "graphs")
  /\ quizTopic (deliverAll
                  (PdfUploader.calls
                     (uploadEach [ PdfUploader.mkFile "algebra.pdf" "application/pdf";
                                   PdfUploader.mkFile ".txt" "text/plain" ]
                                 PdfUploader.mount)) mount)
     = Some (Some "algebra").
Proof. split; reflexivity. Qed.

(** *** Toast and suggestion *)

Lemma step_shell_invariant e s :
  ((show (showToast s) = true -> 0 < toastTimers s)
   /\ (showQuizSuggestion s = true -> uploadedFiles s <> [])
   /\ (suggestionTimer s = true -> uploadedFiles s <> [])) ->
  (show (showToast (step e s)) = true -> 0 < toastTimers (step e s))
  /\ (showQuizSuggestion (step e s) = true -> uploadedFiles (step e s) <> [])
  /\ (suggestionTimer (step e s) = true -> uploadedFiles (step e s) <> []).
Proof.
  intros [H1 [H2 H3]].
  destruct e; cbn [step].
  - unfold handleFileUpload, suggestionEffect, displayToast.
    cbn [showToast show toastTimers showQuizSuggestion uploadedFiles suggestionTimer].
    repeat split; try lia;
      intros _ E; apply app_eq_nil in E; destruct E as [_ E]; discriminate.
  - cbn. repeat split; assumption.
  - unfold toastTimerFires. destruct (toastTimers s) eqn:E.
    + rewrite E. repeat split; assumption.
    + cbn. repeat split; try assumption. discriminate.
  - cbn. repeat split; try assumption. discriminate.
  - unfold suggestionTimerFires. destruct (suggestionTimer s) eqn:E.
    + cbn. repeat split; try assumption; discriminate.
    + rewrite E. repeat split; assumption.
  - cbn. repeat split; try assumption. discriminate.
  - cbn. repeat split; try assumption. lia.
  - cbn. repeat split; try assumption. discriminate.
Qed.

(** X13: through every sequence of shell events from the mounted
    application: a visible toast always has a dismissal timer running,
    so no toast stays for ever; the quiz suggestion is shown, and its
    timer is pending, only when a file has been uploaded; and rejecting
    the suggestion hides it. *)
Theorem shell_toast_and_suggestion :
  forall (es : list Event),
    (show (showToast (run es mount)) = true -> 0 < toastTimers (run es mount))
    /\ (showQuizSuggestion (run es mount) = true -> uploadedFiles (run es mount) <> [])
    /\ (suggestionTimer (run es mount) = true -> uploadedFiles (run es mount) <> [])
    /\ showQuizSuggestion (run (es ++ [Rejected]) mount) = false.
Proof.
  intros es.
  assert (G : forall l s,
             ((show (showToast s) = true -> 0 < toastTimers s)
              /\ (showQuizSuggestion s = true -> uploadedFiles s <> [])
              /\ (suggestionTimer s = true -> uploadedFiles s <> [])) ->
             ((show (showToast (run l s)) = true -> 0 < toastTimers (run l s))
              /\ (showQuizSuggestion (run l s) = true -> uploadedFiles (run l s) <> [])
              /\ (suggestionTimer (run l s) = true -> uploadedFiles (run l s) <> []))).
  { induction l as [|e l IH]; intros s H; [exact H|].
    simpl. apply IH. apply step_shell_invariant. exact H. }
  destruct (G es mount) as [H1 [H2 H3]].
  { cbn. repeat split; discriminate. }
  split; [exact H1|]. split; [exact H2|]. split; [exact H3|].
  unfold run. rewrite fold_left_app. reflexivity.
Qed.

(** A second toast shown while the timer of the first is running is
    taken down by that timer. *)
Example early_dismissal :
  forall s m1 m2,
    show (showToast (toastTimerFires (displayToast m2 Success (displayToast m1 Success s))))
    = false
    /\ toastTimers (toastTimerFires (displayToast m2 Success (displayToast m1 Success s)))
       = S (toastTimers s).
Proof. intros s m1 m2. split; reflexivity. Qed.

(** *** Uploads in flight *)

Lemma callsFor_app a b : callsFor (a ++ b) = callsFor a ++ callsFor b.
Proof. unfold callsFor. apply flat_map_app. Qed.

Lemma intakeStep_ledger e u :
  PdfUploader.calls (intakeStep e u) ++ callsFor (PdfUploader.timers (intakeStep e u))
  = (PdfUploader.calls u ++ callsFor (PdfUploader.timers u))
    ++ callsFor (filter accepted (picked [e])).
Proof.
  destruct e as [[|f more]|]; cbn [intakeStep picked flat_map app filter].
  - cbn. rewrite app_nil_r. reflexivity.
  - unfold PdfUploader.handleFileChange. fold (accepted f).
    destruct (accepted f); cbn [negb PdfUploader.calls PdfUploader.timers].
    + rewrite callsFor_app, app_assoc. reflexivity.
    + cbn [callsFor flat_map]. rewrite app_nil_r. reflexivity.
  - unfold PdfUploader.timerFires.
    destruct (PdfUploader.timers u) as [|f rest] eqn:E.
    + rewrite E. cbn. rewrite !app_nil_r. reflexivity.
    + cbn [PdfUploader.calls PdfUploader.timers callsFor flat_map].
      rewrite app_nil_r, <- !app_assoc. reflexivity.
Qed.

Lemma intakeStep_loading e u :
  (PdfUploader.isLoading u = true -> PdfUploader.timers u <> []) ->
  PdfUploader.isLoading (intakeStep e u) = true -> PdfUploader.timers (intakeStep e u) <> [].
Proof.
  intros H.
  destruct e as [[|f more]|]; cbn [intakeStep].
  - exact H.
  - unfold PdfUploader.handleFileChange.
    destruct (negb (Js.arrIncludes PdfUploader.validTypes (PdfUploader.f_type f)));
      cbn [PdfUploader.isLoading PdfUploader.timers]; [exact H|].
    intros _ E. apply app_eq_nil in E. destruct E as [_ E]. discriminate.
  - unfold PdfUploader.timerFires.
    destruct (PdfUploader.timers u) eqn:E; [rewrite E; exact H|].
    cbn. discriminate.
Qed.

Lemma picked_app a b : picked (a ++ b) = picked a ++ picked b.
Proof. unfold picked. apply flat_map_app. Qed.

(** X21: uploads may overlap: files are chosen and upload timers fire in
    any order.  At every moment the calls already made, followed by the
    calls the pending timers will make, are exactly the calls of the
    accepted files in the order they were chosen: no accepted file is
    lost, duplicated or overtaken, and a rejected file never produces a
    call.  The loading indicator is on only while an upload is pending
    (it can be off while one still is). *)
Theorem intake_delivers_in_order :
  forall (es : list IntakeEvent),
    PdfUploader.calls (intakeRun es PdfUploader.mount)
      ++ callsFor (PdfUploader.timers (intakeRun es PdfUploader.mount))
    = callsFor (filter accepted (picked es))
    /\ (PdfUploader.isLoading (intakeRun es PdfUploader.mount) = true ->
        PdfUploader.timers (intakeRun es PdfUploader.mount) <> []).
Proof.
  induction es as [|e es [IH1 IH2]] using rev_ind.
  - split; [reflexivity | discriminate].
  - unfold intakeRun in *. rewrite fold_left_app. cbn [fold_left]. split.
    + rewrite intakeStep_ledger, IH1, picked_app, filter_app, callsFor_app. reflexivity.
    + apply intakeStep_loading. exact IH2.
Qed.

Example overlapping_uploads :
  PdfUploader.isLoading
    (intakeRun [ Chosen [PdfUploader.mkFile "a.pdf" "application/pdf"];
                 Chosen [PdfUploader.mkFile "b.txt" "text/plain"];
                 UploadTimer ] PdfUploader.mount) = false
  /\ map PdfUploader.f_name
         (PdfUploader.timers
            (intakeRun [ Chosen [PdfUploader.mkFile "a.pdf" "application/pdf"];
                         Chosen [PdfUploader.mkFile "b.txt" "text/plain"];
                         UploadTimer ] PdfUploader.mount)) = ["b.txt"].
Proof. split; reflexivity. Qed.

End AppProps.

(* ===================================================================== *)
(** ** Resources: figures, identifiers, growth, search                    *)
(* ===================================================================== *)

Module ResourcesStatsProps.
Import Resources ResourcesStats ResourcesProps.

(** *** Counts per category *)

Lemma count_clusters_uniform (p : Resource -> bool) (k : nat) :
  (forall t i, List.length (filter p (cluster t i)) = k) ->
  forall ts i, List.length (filter p (clusters ts i)) = k * List.length ts.
Proof.
  intros H. induction ts as [|t ts IH]; intros i; [simpl; lia|].
  cbn [clusters]. rewrite filter_app, length_app, H, IH. simpl. lia.
Qed.

Lemma catalog_clusters f files :
  catalog (f :: files) = clusters (uniqueTopics (f :: files)) 0.
Proof.
  unfold catalog. cbn [List.length Nat.ltb Nat.leb].
  rewrite forEachTopic_clusters. reflexivity.
Qed.

(** The distinct topics of the files, counted on any list that holds each
    of them once. *)
Lemma same_members_length (l l' : list string) :
  NoDup l -> NoDup l' -> (forall x, In x l <-> In x l') -> List.length l = List.length l'.
Proof.
  intros H H' Hm. apply Nat.le_antisymm.
  - apply NoDup_incl_length; [exact H | intros x Hx; apply Hm; exact Hx].
  - apply NoDup_incl_length; [exact H' | intros x Hx; apply Hm; exact Hx].
Qed.

Lemma distinct_topics_count f files (T : list string) :
  NoDup T ->
  (forall t, In t T <-> exists x ts, In x (f :: files)
                                     /\ PdfUploader.topics x = Some ts /\ In t ts) ->
  List.length (uniqueTopics (f :: files)) = List.length T.
Proof.
  intros HT Hm.
  assert (Hu : uniqueTopics (f :: files) = Js.firstSeen (allTopics (f :: files)))
    by apply unique_firstSeen.
  apply same_members_length; [rewrite Hu; apply firstSeen_NoDup | exact HT |].
  intros t. rewrite Hu, firstSeen_In, allTopics_In. symmetry. apply Hm.
Qed.

(** X14: the figures on the category buttons.  Let [T] list, each once,
    the topics written in the [topics] arrays of the uploaded files, so
    that its length [n] is the number of distinct topics.  Then the
    buttons show 6n for "all", 2n for videos, 2n for articles, n for
    interactive items and n for books; and with an empty search query
    the list shown under a category has as many entries as its button
    says. *)
Theorem category_counts :
  forall (f : PdfUploader.UploadedFile) (files : list PdfUploader.UploadedFile)
         (T : list string),
    NoDup T ->
    (forall t, In t T <-> exists x ts, In x (f :: files)
                                       /\ PdfUploader.topics x = Some ts /\ In t ts) ->
    categoryCount "all" (catalog (f :: files)) = 6 * List.length T
    /\ categoryCount "video" (catalog (f :: files)) = 2 * List.length T
    /\ categoryCount "article" (catalog (f :: files)) = 2 * List.length T
    /\ categoryCount "interactive" (catalog (f :: files)) = List.length T
    /\ categoryCount "book" (catalog (f :: files)) = List.length T
    /\ forall cat,
         option_map (@List.length Resource) (filtered (catalog (f :: files)) cat "")
         = Some (categoryCount cat (catalog (f :: files))).
Proof.
  intros f files T HT Hm.
  rewrite <- (distinct_topics_count f files T HT Hm).
  rewrite catalog_clusters.
  split; [apply clusters_length|].
  split; [unfold categoryCount; cbn [String.eqb Ascii.eqb Bool.eqb];
          apply count_clusters_uniform; intros t i; reflexivity|].
  split; [unfold categoryCount; cbn [String.eqb Ascii.eqb Bool.eqb];
          apply count_clusters_uniform; intros t i; reflexivity|].
  split; [unfold categoryCount; cbn [String.eqb Ascii.eqb Bool.eqb];
          rewrite <- (Nat.mul_1_l (List.length (uniqueTopics (f :: files))));
          apply count_clusters_uniform; intros t i; reflexivity|].
  split; [unfold categoryCount; cbn [String.eqb Ascii.eqb Bool.eqb];
          rewrite <- (Nat.mul_1_l (List.length (uniqueTopics (f :: files))));
          apply count_clusters_uniform; intros t i; reflexivity|].
  intros cat. unfold filtered, byCategory, categoryCount.
  cbn [Js.trim Js.trimStart Js.trimEnd Js.truthy].
  destruct (String.eqb cat "all"); reflexivity.
Qed.

Lemma two_files_topics :
  NoDup ["graphs"; "trees"]
  /\ forall t,
       In t ["graphs"; "trees"]
       <-> exists x ts,
             In x [ PdfUploader.mkUploaded "a.pdf" "application/pdf" (PdfUploader.Href "#")
                      (Some ["graphs"; "trees"]);
                    PdfUploader.mkUploaded "b.txt" "text/plain" (PdfUploader.Href "#")
                      (Some ["trees"; "graphs"]) ]
             /\ PdfUploader.topics x = Some ts /\ In t ts.
Proof.
  split.
  - repeat constructor; cbn; intuition discriminate.
  - intros t. split.
    + intros H. eexists _, ["graphs"; "trees"].
      split; [left; reflexivity|]. split; [reflexivity | exact H].
    + intros [x [ts [[<- | [<- | []]] [E Ht]]]]; cbn in E; injection E as <-;
        cbn in *; tauto.
Qed.

Lemma category_counts_witness :
  categoryCount "video"
    (catalog [ PdfUploader.mkUploaded "a.pdf" "application/pdf" (PdfUploader.Href "#")
                 (Some ["graphs"; "trees"]);
               PdfUploader.mkUploaded "b.txt" "text/plain" (PdfUploader.Href "#")
                 (Some ["trees"; "graphs"]) ]) = 4.
Proof.
  destruct two_files_topics as [Hn Hm].
  destruct (category_counts _ _ ["graphs"; "trees"] Hn Hm) as [_ [H _]].
  exact H.
Defined.

(** *** Topics covered *)

Lemma firstSeen_NoDup_id l : NoDup l -> Js.firstSeen l = l.
Proof.
  induction 1 as [|x l Hx Hl IH]; [reflexivity|].
  simpl. rewrite IH. f_equal. apply filter_id.
  intros y Hy. destruct (String.eqb y x) eqn:E; [|reflexivity].
  apply String.eqb_eq in E. subst y. contradiction.
Qed.

Lemma firstSeen_repeat_head x l :
  Js.firstSeen (x :: x :: l) = Js.firstSeen (x :: l).
Proof.
  cbn [Js.firstSeen]. f_equal.
  cbn [filter]. rewrite String.eqb_refl. cbn [negb].
  rewrite filter_filter. apply filter_ext. intros y. apply andb_diag.
Qed.

Lemma firstSeen_topics ts : forall i,
  Js.firstSeen (map topic (clusters ts i)) = Js.firstSeen ts.
Proof.
  induction ts as [|t ts IH]; intros i; [reflexivity|].
  cbn [clusters]. rewrite map_app.
  change (map topic (cluster t i)) with [t; t; t; t; t; t].
  cbn [app]. rewrite !firstSeen_repeat_head.
  cbn [Js.firstSeen]. rewrite IH. reflexivity.
Qed.

(** X15: the "Topics Covered" figure.  It is 1 for the default catalog
    shown when no file is uploaded.  With uploaded files it is the number
    of distinct topics written in their [topics] arrays: the length of
    any list [T] that holds each of those topics once. *)
Theorem topics_covered_counts_distinct_topics :
  topicsCovered (catalog []) = 1
  /\ forall (f : PdfUploader.UploadedFile) (files : list PdfUploader.UploadedFile)
            (T : list string),
       NoDup T ->
       (forall t, In t T <-> exists x ts, In x (f :: files)
                                          /\ PdfUploader.topics x = Some ts /\ In t ts) ->
       topicsCovered (catalog (f :: files)) = List.length T.
Proof.
  split; [reflexivity|].
  intros f files T HT Hm.
  rewrite <- (distinct_topics_count f files T HT Hm).
  unfold topicsCovered.
  rewrite catalog_clusters, unique_firstSeen, firstSeen_topics.
  assert (Hu : uniqueTopics (f :: files) = Js.firstSeen (allTopics (f :: files)))
    by apply unique_firstSeen.
  assert (Hn : NoDup (uniqueTopics (f :: files))) by (rewrite Hu; apply firstSeen_NoDup).
  rewrite (firstSeen_NoDup_id _ Hn). reflexivity.
Qed.

Lemma topics_covered_counts_distinct_topics_witness :
  topicsCovered
    (catalog [ PdfUploader.mkUploaded "a.pdf" "application/pdf" (PdfUploader.Href "#")
                 (Some ["graphs"; "trees"]);
               PdfUploader.mkUploaded "b.txt" "text/plain" (PdfUploader.Href "#")
                 (Some ["trees"; "graphs"]) ]) = 2.
Proof.
  destruct two_files_topics as [Hn Hm].
  destruct topics_covered_counts_distinct_topics as [_ H].
  exact (H _ _ ["graphs"; "trees"] Hn Hm).
Defined.

(** *** The catalog only grows *)

Lemma clusters_app xs : forall ys i,
  clusters (xs ++ ys) i = clusters xs i ++ clusters ys (i + List.length xs).
Proof.
  induction xs as [|x xs IH]; intros ys i.
  - simpl. rewrite Nat.add_0_r. reflexivity.
  - cbn [app clusters List.length]. rewrite IH, <- app_assoc.
    replace (S i + List.length xs) with (i + S (List.length xs)) by lia. reflexivity.
Qed.

Lemma unique_app la lb :
  Js.unique (la ++ lb)
  = Js.unique la ++ filter (fun t => negb (Js.arrIncludes (Js.unique la) t)) (Js.unique lb).
Proof.
  unfold Js.unique at 1. rewrite fold_left_app.
  fold (Js.unique la). rewrite unique_from, (unique_firstSeen lb). reflexivity.
Qed.

Lemma allTopics_app a b : allTopics (a ++ b) = allTopics a ++ allTopics b.
Proof. unfold allTopics. apply flat_map_app. Qed.

(** X16: uploading more files never changes the part of the catalog that
    is already there.  The catalog of the longer file list is the old
    catalog followed by the clusters of the topics that are new, numbered
    on from the old topics; so a resource id, once shown (and possibly
    made a favorite), keeps naming the same resource. *)
Theorem catalog_grows_at_the_end :
  forall (f : PdfUploader.UploadedFile) (files more : list PdfUploader.UploadedFile),
    catalog ((f :: files) ++ more)
    = catalog (f :: files)
      ++ clusters (filter (fun t => negb (Js.arrIncludes (uniqueTopics (f :: files)) t))
                          (uniqueTopics more))
                  (List.length (uniqueTopics (f :: files))).
Proof.
  intros f files more.
  change ((f :: files) ++ more) with (f :: (files ++ more)).
  rewrite !catalog_clusters.
  change (f :: files ++ more) with ((f :: files) ++ more).
  unfold uniqueTopics. rewrite allTopics_app, unique_app, clusters_app. reflexivity.
Qed.

(** *** Search ignores letter case *)

Lemma lower_upper_char c : Js.lowerChar (Js.upperChar c) = Js.lowerChar c.
Proof. destruct c as [[] [] [] [] [] [] [] []]; reflexivity. Qed.

Lemma lower_lower_char c : Js.lowerChar (Js.lowerChar c) = Js.lowerChar c.
Proof. destruct c as [[] [] [] [] [] [] [] []]; reflexivity. Qed.

Lemma space_upper_char c : Js.isSpace (Js.upperChar c) = Js.isSpace c.
Proof. destruct c as [[] [] [] [] [] [] [] []]; reflexivity. Qed.

Lemma space_lower_char c : Js.isSpace (Js.lowerChar c) = Js.isSpace c.
Proof. destruct c as [[] [] [] [] [] [] [] []]; reflexivity. Qed.

Lemma lower_upper s : Js.toLowerCase (Js.toUpperCase s) = Js.toLowerCase s.
Proof.
  induction s as [|c s IH]; [reflexivity|].
  simpl. rewrite lower_upper_char, IH. reflexivity.
Qed.

Lemma lower_lower s : Js.toLowerCase (Js.toLowerCase s) = Js.toLowerCase s.
Proof.
  induction s as [|c s IH]; [reflexivity|].
  simpl. rewrite lower_lower_char, IH. reflexivity.
Qed.

Lemma trimEnd_ink c r : Js.isSpace c = false -> Js.truthy (Js.trimEnd (String c r)) = true.
Proof.
  intros H. cbn [Js.trimEnd]. rewrite H.
  destruct (Js.trimEnd r); reflexivity.
Qed.

Lemma blank_upper s :
  Js.truthy (Js.trim (Js.toUpperCase s)) = Js.truthy (Js.trim s).
Proof.
  unfold Js.trim. induction s as [|c s IH]; [reflexivity|].
  cbn [Js.toUpperCase Js.trimStart]. rewrite space_upper_char.
  destruct (Js.isSpace c) eqn:E; [exact IH|].
  rewrite !trimEnd_ink; [reflexivity | exact E | rewrite space_upper_char; exact E].
Qed.

Lemma blank_lower s :
  Js.truthy (Js.trim (Js.toLowerCase s)) = Js.truthy (Js.trim s).
Proof.
  unfold Js.trim. induction s as [|c s IH]; [reflexivity|].
  cbn [Js.toLowerCase Js.trimStart]. rewrite space_lower_char.
  destruct (Js.isSpace c) eqn:E; [exact IH|].
  rewrite !trimEnd_ink; [reflexivity | exact E | rewrite space_lower_char; exact E].
Qed.

Lemma filterThrowing_ext {A} (p q : A -> option bool) l :
  (forall x, p x = q x) -> filterThrowing p l = filterThrowing q l.
Proof.
  intros H. induction l as [|x l IH]; [reflexivity|].
  simpl. rewrite H, IH. reflexivity.
Qed.

Lemma filtered_same_lower rs cat q q' :
  Js.toLowerCase q' = Js.toLowerCase q ->
  Js.truthy (Js.trim q') = Js.truthy (Js.trim q) ->
  filtered rs cat q' = filtered rs cat q.
Proof.
  intros Hl Ht. unfold filtered. rewrite Ht.
  destruct (Js.truthy (Js.trim q)); [|reflexivity].
  apply filterThrowing_ext. intros r.
  unfold matchesQuery, hit. rewrite Hl. reflexivity.
Qed.

(** X17: for a query made of ASCII characters the search does not depend
    on the letter case of the query: for every catalog and category, the
    query written in capitals or in small letters gives what the query
    itself gives, the same list in the same order, or the same failure.
    (Beyond ASCII the case mappings of the language are not inverse to
    each other, and the property is not claimed.) *)
Theorem search_ignores_case_of_query :
  forall (rs : list Resource) (cat q : string),
    isAscii q = true ->
    filtered rs cat (Js.toUpperCase q) = filtered rs cat q
    /\ filtered rs cat (Js.toLowerCase q) = filtered rs cat q.
Proof.
  intros rs cat q _. split; apply filtered_same_lower.
  - apply lower_upper.
  - apply blank_upper.
  - apply lower_lower.
  - apply blank_lower.
Qed.

Lemma search_ignores_case_of_query_witness :
  isAscii "Tutorial" = true
  /\ filtered (catalog [PdfUploader.mkUploaded "notes.pdf" "application/pdf"
                          (PdfUploader.Href "#") (Some ["notes"])]) "video" "TUTORIAL"
     = filtered (catalog [PdfUploader.mkUploaded "notes.pdf" "application/pdf"
                            (PdfUploader.Href "#") (Some ["notes"])]) "video" "Tutorial".
Proof.
  split; [reflexivity|].
  exact (proj1 (search_ignores_case_of_query
                  (catalog [PdfUploader.mkUploaded "notes.pdf" "application/pdf"
                              (PdfUploader.Href "#") (Some ["notes"])])
                  "video" "Tutorial" eq_refl)).
Defined.

(** *** Favorites *)

Lemma afterToggles_favorites ids : forall s,
  favorites (afterToggles ids s) = fold_left (fun acc x => toggle x acc) ids (favorites s)
  /\ resources (afterToggles ids s) = resources s
  /\ filteredResources (afterToggles ids s) = filteredResources s.
Proof.
  induction ids as [|i ids IH]; intros s; [repeat split|].
  change (afterToggles (i :: ids) s) with (afterToggles ids (toggleFavorite i s)).
  destruct (IH (toggleFavorite i s)) as [H1 [H2 H3]].
  rewrite H1, H2, H3. repeat split.
Qed.

(** X18: after any sequence of clicks on hearts, starting from the
    mounted browser, a resource is a favorite exactly when its heart was
    clicked an odd number of times, and the favorites hold no id twice,
    so that the "Favorites" figure counts each favorite once; the
    catalog and the filtered list are not touched. *)
Theorem favorites_by_parity :
  forall (ids : list string),
    NoDup (favorites (afterToggles ids mount))
    /\ (forall i, isFavorite (afterToggles ids mount) i = Nat.odd (count_occ string_dec ids i))
    /\ resources (afterToggles ids mount) = resources mount
    /\ filteredResources (afterToggles ids mount) = filteredResources mount.
Proof.
  intros ids. destruct (afterToggles_favorites ids mount) as [H1 [H2 H3]].
  unfold isFavorite. rewrite H1. cbn [favorites mount].
  split; [apply QuestionPaperTopicsProps.toggles_NoDup|].
  split; [apply QuestionPaperTopicsProps.toggles_parity|].
  split; assumption.
Qed.

(** *** Identifiers *)

Lemma sep_splits (sep : ascii) :
  QuizTimer.isDigit sep = false ->
  forall a b x y,
    QuizTimer.allDigits a = true -> QuizTimer.allDigits b = true ->
    a +++ String sep x = b +++ String sep y -> a = b /\ x = y.
Proof.
  intros Hsep. induction a as [|c a IH]; intros [|c' b] x y Ha Hb H; simpl in *.
  - injection H as ->. split; reflexivity.
  - injection H as <- _. rewrite Hsep in Hb. discriminate.
  - injection H as -> _. rewrite Hsep in Ha. discriminate.
  - injection H as -> H.
    apply andb_true_iff in Ha, Hb.
    destruct (IH b x y (proj2 Ha) (proj2 Hb) H) as [-> ->]. split; reflexivity.
Qed.

(** Two ids of the loop that are equal were given out at the same
    position, with the same kind and the same number. *)
Ltac same_id H :=
  cbn [String.append] in H;
  first
    [ discriminate H
    | repeat (injection H as H);
      apply (sep_splits "-" eq_refl) in H;
      [ | apply QuizTimerProps.allDigits_ofNat | apply QuizTimerProps.allDigits_ofNat ];
      destruct H as [H ?] ].

Lemma ids_cluster t k : map id (cluster t k) = idsAt k.
Proof. reflexivity. Qed.

Lemma idsAt_same_position j k x : In x (idsAt j) -> In x (idsAt k) -> j = k.
Proof.
  unfold idsAt. cbn [In]. intros Hj Hk.
  repeat (destruct Hj as [Hj | Hj]); try contradiction; subst x;
    repeat (destruct Hk as [Hk | Hk]); try contradiction;
    same_id Hk; try discriminate;
    apply QuizTimerProps.ofNat_inj in Hk; symmetry; exact Hk.
Qed.

Lemma idsAt_NoDup k : NoDup (idsAt k).
Proof.
  unfold idsAt.
  repeat (constructor; [cbn [In]; intros H;
                        repeat (destruct H as [H | H]); try contradiction;
                        same_id H; discriminate |]).
  constructor.
Qed.

Lemma ids_clusters_range ts : forall i x,
  In x (map id (clusters ts i)) -> exists k, i <= k /\ In x (idsAt k).
Proof.
  induction ts as [|t ts IH]; intros i x H; [contradiction|].
  cbn [clusters] in H. rewrite map_app, ids_cluster in H.
  apply in_app_or in H. destruct H as [H | H].
  - exists i. split; [lia | exact H].
  - destruct (IH _ _ H) as [k [Hk Hx]]. exists k. split; [lia | exact Hx].
Qed.

Lemma ids_clusters_NoDup ts : forall i, NoDup (map id (clusters ts i)).
Proof.
  induction ts as [|t ts IH]; intros i; [constructor|].
  cbn [clusters]. rewrite map_app, ids_cluster.
  apply NoDup_app; [apply idsAt_NoDup | apply IH |].
  intros x Hx Hin.
  destruct (ids_clusters_range _ _ _ Hin) as [k [Hk Hxk]].
  pose proof (idsAt_same_position _ _ _ Hx Hxk). lia.
Qed.

(** X19: in every catalog the component generates, from any list of
    uploaded files or from none, no two resources have the same id; a
    favorite, kept by id, is therefore one resource. *)
Theorem catalog_ids_are_distinct :
  forall (files : list PdfUploader.UploadedFile),
    NoDup (map id (catalog files)).
Proof.
  intros [|f files].
  - cbn. repeat constructor. intros [].
  - rewrite catalog_clusters. apply ids_clusters_NoDup.
Qed.

(** *** When the search throws *)

Lemma clusters_tagged ts : forall i, Forall (fun r => tags r <> None) (clusters ts i).
Proof.
  induction ts as [|t ts IH]; intros i; [constructor|].
  cbn [clusters]. apply Forall_app. split; [|apply IH].
  unfold cluster, videos, articles, interactives, books. cbn [app].
  repeat constructor; discriminate.
Qed.

(** X20: on a catalog generated from uploaded files the filter effect
    never throws, whatever the category and the query, and what it shows
    are resources of the catalog.  On the default catalog, shown when no
    file is uploaded, it throws exactly when the query is not blank, the
    category is "all" or "video", and the query occurs in none of the
    title, the description and the topic of the default resource. *)
Theorem search_throws_only_on_default_catalog :
  (forall (f : PdfUploader.UploadedFile) (files : list PdfUploader.UploadedFile)
          (cat q : string),
      exists shown,
        filtered (catalog (f :: files)) cat q = Some shown
        /\ forall r, In r shown -> In r (catalog (f :: files)))
  /\ forall (cat q : string),
       filtered (catalog []) cat q = None
       <-> Js.truthy (Js.trim q)
           && (String.eqb cat "all" || String.eqb cat "video")
           && negb (hit "Getting Started with Learning" q)
           && negb (hit "Learn how to make the most of your study sessions" q)
           && negb (hit "Study Skills" q) = true.
Proof.
  split.
  - intros f files cat q. rewrite catalog_clusters.
    rewrite (filtered_tagged _ cat q (clusters_tagged _ 0)).
    eexists. split; [reflexivity|].
    intros r Hr. apply filter_In in Hr. apply Hr.
  - intros cat q.
    unfold filtered, byCategory, catalog, defaultResources.
    cbn [List.length Nat.ltb Nat.leb filter category].
    rewrite (String.eqb_sym "video" cat).
    destruct (Js.truthy (Js.trim q)); cbn [andb];
      [|destruct (negb (String.eqb cat "all")); split; discriminate].
    destruct (String.eqb cat "all"); cbn [negb orb andb];
      [|destruct (String.eqb cat "video"); cbn [andb]];
      unfold matchesQuery; cbn [filterThrowing title description topic tags];
      try (split; discriminate);
      destruct (hit "Getting Started with Learning" q);
      destruct (hit "Learn how to make the most of your study sessions" q);
      destruct (hit "Study Skills" q); cbn; split; try discriminate; reflexivity.
Qed.

End ResourcesStatsProps.
